(** * TigerBot chat gateway (apps/deprecated/api.py): a shallow embedding

    The gateway is a FastAPI application with three generating endpoints
    ([/chat], [/stream_chat], [/v1/chat/completions]) around an opaque
    language model.  This development embeds the handlers as functions in
    a small state-and-exception monad over the process-wide objects the
    Python code mutates ([generation_kwargs], [tokenizer.model_max_length])
    and proves properties of prompt rendering, parameter resolution,
    request validation, history reconstruction and response
    post-processing. *)

From Stdlib Require Import ZArith NArith Ascii String List Lia.
From Corelib Require Import SpecFloat.
From stdpp Require Import base option list gmap strings fin_maps.

Local Open Scope Z_scope.

(** ** Python strings

    A Python [str] is a sequence of Unicode code points; a code point is
    an [N].  Literals of the source are ASCII and are written with [lit];
    the newline escape of the source is the code point 10. *)

Abbreviation pystr := (list N) (only parsing).

Definition lit (s : string) : list N :=
  N_of_ascii <$> list_ascii_of_string s.

Definition NL : N := 10%N.

(** [c in chars], the membership test of [str.lstrip(chars)] and
    [str.rstrip(chars)]. *)
Definition in_chars (chars : list N) (c : N) : bool :=
  existsb (N.eqb c) chars.

(** [str.isspace] on one code point: the table of CPython's
    [_PyUnicode_IsWhitespace]. *)
Definition isspace (c : N) : bool :=
  ((9 <=? c) && (c <=? 13) || (28 <=? c) && (c <=? 32)
   || (c =? 133) || (c =? 160) || (c =? 5760)
   || (8192 <=? c) && (c <=? 8202)
   || (c =? 8232) || (c =? 8233) || (c =? 8239) || (c =? 8287)
   || (c =? 12288))%N.

(** Left scan of [do_xstrip]: skip while the predicate holds. *)
Fixpoint lstrip_by (P : N -> bool) (s : list N) : list N :=
  match s with
  | [] => []
  | c :: t => if P c then lstrip_by P t else s
  end.

(** Right scan of [do_xstrip]: the end index moves left while the
    character before it satisfies the predicate. *)
Fixpoint rstrip_by (P : N -> bool) (s : list N) : list N :=
  match s with
  | [] => []
  | c :: t =>
      match rstrip_by P t with
      | [] => if P c then [] else [c]
      | r => c :: r
      end
  end.

Definition py_lstrip (chars s : list N) : list N := lstrip_by (in_chars chars) s.
Definition py_rstrip (chars s : list N) : list N := rstrip_by (in_chars chars) s.
Definition py_strip_chars (chars s : list N) : list N :=
  rstrip_by (in_chars chars) (lstrip_by (in_chars chars) s).

(** [s.strip()] without argument strips whitespace on both sides. *)
Definition py_strip (s : list N) : list N :=
  rstrip_by isspace (lstrip_by isspace s).

(** ** Prompt rendering *)

(** A turn of the history: [(old_query, response)]. *)
Abbreviation turn := (list N * list N)%type (only parsing).

(** [get_prompt] (api.py, lines 70-78).  [history] is [None] when the
    argument is absent; [not history] holds for [None] and for the empty
    list.  The [for] loop appending to [prompt] is a left fold. *)
Definition get_prompt (query : list N) (history : option (list turn)) : list N :=
  match history with
  | None | Some [] =>
      [NL; NL] ++ lit "### Instruction:" ++ [NL] ++ query
        ++ [NL; NL] ++ lit "### Response:" ++ [NL]
  | Some h =>
      let prompt :=
        fold_left
          (fun prompt '(old_query, response) =>
             prompt ++ ([NL; NL] ++ lit "### Instruction:" ++ [NL] ++ old_query
                          ++ [NL; NL] ++ lit "### Response:" ++ [NL] ++ response))
          h [] in
      prompt ++ ([NL; NL] ++ lit "### Instruction:" ++ [NL] ++ query
                   ++ [NL; NL] ++ lit "### Response:" ++ [NL])
  end.

(** One instruction/response block of the transcript: the instruction
    header, the instruction text, the response header and the response
    text (empty for the slot the model is to fill). *)
Definition block (t : turn) : list N :=
  [NL; NL] ++ lit "### Instruction:" ++ [NL] ++ t.1
    ++ [NL; NL] ++ lit "### Response:" ++ [NL] ++ t.2.

(** The turns of a history argument, [[]] when it is absent. *)
Definition turns (history : option (list turn)) : list turn :=
  default [] history.

(** ** Python values

    The values that travel through the JSON body of a request and through
    the [generation_kwargs] dictionary: [None], booleans, integers, floats
    (binary64, as [spec_float]), strings, the tensors of a tokenizer
    output and the streamer object. *)
Inductive pyval :=
  | PNone
  | PBool (b : bool)
  | PInt (z : Z)
  | PFloat (f : spec_float)
  | PStr (s : list N)
  | PTensor (t : list Z)
  | PStreamer.

(** The float literals of the source: [0.95] and [0.8] in binary64. *)
Definition float_0_95 : spec_float := S754_finite false 8556839292003942 (-53).
Definition float_0_8 : spec_float := S754_finite false 7205759403792794 (-53).

(** Numbers as extended dyadic rationals, to order integers, booleans and
    floats against each other exactly, as Python does. *)
Inductive xnum :=
  | XNaN
  | XInf (negative : bool)
  | XDy (m e : Z).

Definition xnum_of (v : pyval) : option xnum :=
  match v with
  | PBool b => Some (XDy (if b then 1 else 0) 0)
  | PInt z => Some (XDy z 0)
  | PFloat (S754_zero _) => Some (XDy 0 0)
  | PFloat (S754_infinity s) => Some (XInf s)
  | PFloat S754_nan => Some XNaN
  | PFloat (S754_finite s m e) => Some (XDy (if s then Z.neg m else Z.pos m) e)
  | _ => None
  end.

Definition xnum_gt (a b : xnum) : bool :=
  match a, b with
  | XNaN, _ | _, XNaN => false
  | XInf sa, XInf sb => negb sa && sb
  | XInf sa, XDy _ _ => negb sa
  | XDy _ _, XInf sb => sb
  | XDy m1 e1, XDy m2 e2 =>
      let e := Z.min e1 e2 in
      m2 * 2 ^ (e2 - e) <? m1 * 2 ^ (e1 - e)
  end.

(** [a > b] on strings: lexicographic on code points. *)
Fixpoint str_gt (a b : list N) : bool :=
  match a, b with
  | [], _ => false
  | _ :: _, [] => true
  | x :: a', y :: b' => if (x =? y)%N then str_gt a' b' else (y <? x)%N
  end.

(** [a > b]; [None] stands for the [TypeError] of unorderable operands
    ([None], the streamer, a string against a number).  Ordering against
    a tensor is reported in the same way; no handler stores a tensor
    under ["max_length"]. *)
Definition py_gt (a b : pyval) : option bool :=
  match a, b with
  | PStr s1, PStr s2 => Some (str_gt s1 s2)
  | _, _ =>
      match xnum_of a, xnum_of b with
      | Some x, Some y => Some (xnum_gt x y)
      | _, _ => None
      end
  end.

(** ** Wire data *)

Inductive Role := user | assistant | system.

Definition Role_eqb (a b : Role) : bool :=
  match a, b with
  | user, user | assistant, assistant | system, system => true
  | _, _ => false
  end.

Record ChatMessage := { role : Role; content : list N }.

Record ChatCompletionRequest := {
  model : list N;
  messages : list ChatMessage;
  temperature : option spec_float;
  top_p : option spec_float;
  max_length : option Z;
  stream : option bool }.

Inductive FinishReason := stop | length_.

(** [ChatCompletionResponseChoice] inside a [ChatCompletionResponse] with
    [object = "chat.completion"]; [choices] has the one entry of index 0. *)
Record ChatCompletionResponse := {
  response_model : list N;
  message : ChatMessage;
  finish_reason : FinishReason;
  created : Z }.

(** A streamed chunk ([object = "chat.completion.chunk"]), serialised with
    [exclude_unset]; the JSON text is kept as the structure it encodes. *)
Record ChatCompletionChunk := {
  chunk_model : list N;
  delta_role : option Role;
  delta_content : option (list N);
  chunk_finish_reason : option FinishReason }.

(** The JSON payload of a [/stream_chat] event. *)
Record sse_data := {
  data_response : list N;
  data_history : list turn;
  data_finish : bool }.

Record sse_event := {
  event : string;
  id : string;
  retry : Z;
  data : sse_data }.

(** What a generator hands to [EventSourceResponse]. *)
Inductive wire :=
  | Sse (e : sse_event)
  | Chunk (c : ChatCompletionChunk)
  | Done.

(** The answer dictionary of [/chat]. *)
Record answer := {
  answer_response : list N;
  answer_history : list turn;
  answer_status : Z;
  answer_time : list N }.

(** The body of a [/chat] or [/stream_chat] request: the typed fields
    ["prompt"] and ["history"] ([None] when the key is absent) and the
    remaining keys of the JSON object, [json_post_list]. *)
Record chat_body := {
  body_prompt : list N;
  body_history : option (list turn);
  json_post_list : gmap string pyval }.

(** ** Process state, effects and exceptions *)

Record BatchEncoding := { input_ids : list Z; attention_mask : list Z }.

Inductive effect :=
  | EvTokenize (text : list N) (truncation : bool) (max_len : option pyval)
  | EvGenerate (kwargs : gmap string pyval)
  | EvThreadStart (kwargs : gmap string pyval)
  | EvPoll (disconnected : bool)
  | EvYield (item : wire)
  | EvTorchGc.

(** The module globals the handlers mutate, the effects performed so far
    (oldest first) and a counter that indexes the answers of the outside
    world (sampling, clock). *)
Record world := {
  generation_kwargs : gmap string pyval;
  model_max_length : pyval;
  trace : list effect;
  clock : nat }.

Inductive pyerr :=
  | HTTPException (status_code : Z) (detail : string)
  | IndexError
  | TypeError
  | KeyError
  | UnboundLocalError.

Inductive result (A : Type) :=
  | Ok (a : A)
  | Raise (e : pyerr).
Arguments Ok {A} a.
Arguments Raise {A} e.

Definition M (A : Type) : Type := world -> result A * world.

#[global] Instance M_ret : MRet M := fun A a w => (Ok a, w).
#[global] Instance M_bind : MBind M := fun A B f m w =>
  match m w with
  | (Ok a, w') => f a w'
  | (Raise e, w') => (Raise e, w')
  end.

Definition raise {A} (e : pyerr) : M A := fun w => (Raise e, w).

Definition get_kwargs : M (gmap string pyval) :=
  fun w => (Ok (generation_kwargs w), w).

Definition set_kwarg (k : string) (v : pyval) : M unit :=
  fun w => (Ok tt, {| generation_kwargs := <[k := v]> (generation_kwargs w);
                      model_max_length := model_max_length w;
                      trace := trace w; clock := clock w |}).

Definition get_model_max_length : M pyval :=
  fun w => (Ok (model_max_length w), w).

Definition set_model_max_length (v : pyval) : M unit :=
  fun w => (Ok tt, {| generation_kwargs := generation_kwargs w;
                      model_max_length := v;
                      trace := trace w; clock := clock w |}).

Definition emit (e : effect) : M unit :=
  fun w => (Ok tt, {| generation_kwargs := generation_kwargs w;
                      model_max_length := model_max_length w;
                      trace := trace w ++ [e]; clock := clock w |}).

Definition tick : M nat :=
  fun w => (Ok (clock w), {| generation_kwargs := generation_kwargs w;
                             model_max_length := model_max_length w;
                             trace := trace w; clock := S (clock w) |}).

(** [d[k]]: [KeyError] when the key is missing. *)
Definition getitem (d : gmap string pyval) (k : string) : M pyval :=
  match d !! k with
  | Some v => mret v
  | None => raise KeyError
  end.

Definition gt (a b : pyval) : M bool :=
  match py_gt a b with
  | Some c => mret c
  | None => raise TypeError
  end.

(** ** The external collaborators

    The tokenizer, the model, the streamer and the clock are outside the
    gateway; the handlers are written against this interface.  The answers
    of the sampling model and of the clock are indexed by the [clock]
    counter of the world. *)
Class Collaborators := {
  (** [tokenizer(text, return_tensors="pt", truncation=.., max_length=..)],
      which also reads [tokenizer.model_max_length] *)
  tokenizer_call : pyval -> list N -> bool -> option pyval -> BatchEncoding;
  (** [tokenizer.decode(tok_id)] *)
  tokenizer_decode : Z -> list N;
  (** [tokenizer.eos_token_id] *)
  eos_token_id : option Z;
  (** row 0 of the output of [model.generate] called with the keyword
      arguments: the prompt tokens followed by the
      generated ones *)
  model_generate : nat -> gmap string pyval -> list Z;
  (** the texts a [TextIteratorStreamer] yields while [model.generate]
      runs in its thread with these keyword arguments *)
  streamer_texts : nat -> gmap string pyval -> list (list N);
  (** [datetime.datetime.now().strftime("%Y-%m-%d %H:%M:%S")] *)
  strftime_now : nat -> list N;
  (** [int(time.time())] *)
  time_time : nat -> Z }.

Section Handlers.
Context `{Collaborators}.

Definition tokenizer (text : list N) (truncation : bool)
    (max_len : option pyval) : M BatchEncoding :=
  window ← get_model_max_length;
  emit (EvTokenize text truncation max_len);;
  mret (tokenizer_call window text truncation max_len).

Definition torch_gc : M unit := emit EvTorchGc.

(** [tok_id != tokenizer.eos_token_id] *)
Definition not_eos (tok_id : Z) : bool :=
  match eos_token_id with
  | Some e => negb (tok_id =? e)
  | None => true
  end.

(** The decoding loop of lines 121-124 and 337-340, over
    [output[0][inputs["input_ids"].shape[1]:]]. *)
Definition decode_new_tokens (output : list Z) (inputs : BatchEncoding) : list N :=
  fold_left
    (fun response tok_id =>
       if not_eos tok_id then response ++ tokenizer_decode tok_id else response)
    (drop (length (input_ids inputs)) output) [].

(** [json_post_list.get(key, generation_kwargs.get(kwarg, fallback))] *)
Definition get_or_default (json_post_list kw : gmap string pyval)
    (key kwarg : string) (fallback : pyval) : pyval :=
  default (default fallback (kw !! kwarg)) (json_post_list !! key).

(** Lines 95-108 of [create_item], repeated verbatim as lines 150-163 of
    [stream_chat]: the three [dict.get] chains and the adjustment of
    [tokenizer.model_max_length]. *)
Definition resolve_params (json_post_list : gmap string pyval) : M unit :=
  kw ← get_kwargs;
  set_kwarg "max_length"
    (get_or_default json_post_list kw "max_generate_length" "max_length" (PInt 1024));;
  kw ← get_kwargs;
  set_kwarg "top_p"
    (get_or_default json_post_list kw "top_p" "top_p" (PFloat float_0_95));;
  kw ← get_kwargs;
  set_kwarg "temperature"
    (get_or_default json_post_list kw "temperature" "temperature" (PFloat float_0_8));;
  window ← get_model_max_length;
  kw ← get_kwargs;
  shrink ← match window with
           | PNone => mret true
           | _ => limit ← getitem kw "max_length"; gt window limit
           end;
  if (shrink : bool) then
    kw ← get_kwargs;
    limit ← getitem kw "max_length";
    set_model_max_length limit
  else mret tt.

(** [model.generate] called with the entries of [inputs] and of
    [generation_kwargs] as keyword arguments: a keyword given twice is a
    [TypeError]. *)
Definition generate_inputs_and_kwargs (inputs : BatchEncoding) : M (list Z) :=
  kw ← get_kwargs;
  match kw !! "input_ids", kw !! "attention_mask" with
  | None, None =>
      let kwargs :=
        <["input_ids" := PTensor (input_ids inputs)]>
          (<["attention_mask" := PTensor (attention_mask inputs)]> kw) in
      n ← tick;
      emit (EvGenerate kwargs);;
      mret (model_generate n kwargs)
  | _, _ => raise TypeError
  end.

(** [history + [(prompt, response)]], a [TypeError] on [None]. *)
Definition history_plus (history : option (list turn)) (t : turn) : M (list turn) :=
  match history with
  | Some h => mret (h ++ [t])
  | None => raise TypeError
  end.

(** [POST /chat/] (lines 86-138). *)
Definition create_item (request : chat_body) : M answer :=
  let prompt := body_prompt request in
  let history := body_history request in
  let max_input_length :=
    default (PInt 512) (json_post_list request !! "max_input_length") in
  resolve_params (json_post_list request);;
  let prompt := py_lstrip [NL] prompt in
  let query := get_prompt prompt history in
  let query := py_strip query in
  inputs ← tokenizer query true (Some max_input_length);
  output ← generate_inputs_and_kwargs inputs;
  let response := decode_new_tokens output inputs in
  let response :=
    py_rstrip (NL :: lit "### Response:") (py_lstrip [NL] response) in
  history ← history_plus history (prompt, response);
  n ← tick;
  let time := strftime_now n in
  torch_gc;;
  mret {| answer_response := response; answer_history := history;
          answer_status := 200; answer_time := time |}.

(** [for k, v in inputs.items(): generation_kwargs[k] = v.to(DEVICE)] *)
Definition store_inputs (inputs : BatchEncoding) : M unit :=
  set_kwarg "input_ids" (PTensor (input_ids inputs));;
  set_kwarg "attention_mask" (PTensor (attention_mask inputs)).

(** [Thread(target=model.generate, kwargs=generation_kwargs).start()];
    the result is what the streamer will yield. *)
Definition start_generate_thread : M (list (list N)) :=
  kw ← get_kwargs;
  n ← tick;
  emit (EvThreadStart kw);;
  mret (streamer_texts n kw).

Definition RETRY_TIMEOUT : Z := 15000.

(** The [for new_text in streamer] loop of [event_generator] (lines
    191-210).  [is_disconnected k] is the answer of the [k]-th call of
    [request.is_disconnected()].  The result is [last_msg] and the
    binding of [new_text] when the loop is left, by exhaustion or by
    [break]. *)
Fixpoint event_loop (prompt : list N) (history : option (list turn))
    (is_disconnected : nat -> bool) (k : nat) (streamer : list (list N))
    (last_msg : list N) (bound : option (list N))
    : M (list N * option (list N)) :=
  match streamer with
  | [] => mret (last_msg, bound)
  | new_text :: rest =>
      emit (EvPoll (is_disconnected k));;
      if is_disconnected k then mret (last_msg, Some new_text)
      else
        h ← history_plus history (prompt, last_msg);
        emit (EvYield (Sse {| event := "new_message"; id := "message_id";
                              retry := RETRY_TIMEOUT;
                              data := {| data_response := new_text;
                                         data_history := h;
                                         data_finish := false |} |}));;
        event_loop prompt history is_disconnected (S k) rest
          (last_msg ++ new_text) (Some new_text)
  end.

(** [event_generator] (lines 168-222), run to its end. *)
Definition event_generator (max_input_length : pyval)
    (is_disconnected : nat -> bool)
    (prompt : list N) (history : option (list turn)) : M unit :=
  let query := get_prompt prompt history in
  inputs ← tokenizer query true (Some max_input_length);
  store_inputs inputs;;
  set_kwarg "streamer" PStreamer;;
  streamer ← start_generate_thread;
  '(last_msg, bound) ← event_loop prompt history is_disconnected 0 streamer [] None;
  new_text ← match bound with
             | Some t => mret t
             | None => raise UnboundLocalError
             end;
  h ← history_plus history (prompt, last_msg);
  emit (EvYield (Sse {| event := "finish"; id := "finish_id";
                        retry := RETRY_TIMEOUT;
                        data := {| data_response := new_text;
                                   data_history := h;
                                   data_finish := true |} |}));;
  torch_gc.

(** [GET /stream_chat] (lines 141-226); the returned
    [EventSourceResponse] drives the generator. *)
Definition stream_chat (request : chat_body) (is_disconnected : nat -> bool) : M unit :=
  let prompt := body_prompt request in
  let history := body_history request in
  let max_input_length :=
    default (PInt 512) (json_post_list request !! "max_input_length") in
  resolve_params (json_post_list request);;
  event_generator max_input_length is_disconnected prompt history.

(** ** The OpenAI-compatible endpoint *)

(** [range(0, n, 2)] *)
Definition range_step2 (n : nat) : list nat :=
  (fun k => 2 * k)%nat <$> seq 0 (Nat.div2 (S n)).

(** [l[i]], an [IndexError] out of range. *)
Definition index (l : list ChatMessage) (i : nat) : M ChatMessage :=
  match l !! i with
  | Some m => mret m
  | None => raise IndexError
  end.

(** The loop of lines 311-321 over the indices [i] of
    [range(0, len(prev_messages), 2)]; the [and] of the test evaluates
    [prev_messages[i + 1]] only when the first role is [user]. *)
Fixpoint pair_loop (prev_messages : list ChatMessage) (indices : list nat)
    (history : list turn) : M (list turn) :=
  match indices with
  | [] => mret history
  | i :: rest =>
      a ← index prev_messages i;
      if Role_eqb (role a) user then
        b ← index prev_messages (i + 1);
        if Role_eqb (role b) assistant then
          pair_loop prev_messages rest (history ++ [(content a, content b)])
        else pair_loop prev_messages rest history
      else pair_loop prev_messages rest history
  end.

(** Lines 301-321 of [create_chat_completion]: validation of the last
    message, the optional system prefix and the reconstruction of the
    history.  [messages[-1]] is the last element, [messages[:-1]] the
    list without it, [pop(0)] removes the head. *)
Definition query_and_history (messages : list ChatMessage)
    : M (list N * list turn) :=
  final ← match last messages with
          | Some m => mret m
          | None => raise IndexError
          end;
  if negb (Role_eqb (role final) user) then
    raise (HTTPException 400 "Invalid request")
  else
    let query := content final in
    let prev_messages := removelast messages in
    let '(query, prev_messages) :=
      match prev_messages with
      | first :: rest =>
          if Role_eqb (role first) system
          then (content first ++ query, rest)
          else (query, prev_messages)
      | [] => (query, prev_messages)
      end in
    history ← (if (length prev_messages mod 2 =? 0)%nat
               then pair_loop prev_messages
                      (range_step2 (length prev_messages)) []
               else mret []);
    mret (query, history).

(** The [for new_text in streamer] loop of [predict] (lines 388-403). *)
Fixpoint predict_loop (model_id : list N) (streamer : list (list N)) : M unit :=
  match streamer with
  | [] => mret tt
  | new_text :: rest =>
      if (length new_text =? 0)%nat then predict_loop model_id rest
      else
        emit (EvYield (Chunk {| chunk_model := model_id;
                                delta_role := None;
                                delta_content := Some new_text;
                                chunk_finish_reason := None |}));;
        predict_loop model_id rest
  end.

(** [predict] (lines 356-416), run to its end. *)
Definition predict (query : list N) (history : list turn)
    (model_id : list N) : M unit :=
  emit (EvYield (Chunk {| chunk_model := model_id;
                          delta_role := Some assistant;
                          delta_content := None;
                          chunk_finish_reason := None |}));;
  let query := get_prompt query (Some history) in
  inputs ← tokenizer query false None;
  store_inputs inputs;;
  set_kwarg "streamer" PStreamer;;
  streamer ← start_generate_thread;
  predict_loop model_id streamer;;
  emit (EvYield (Chunk {| chunk_model := model_id;
                          delta_role := None;
                          delta_content := None;
                          chunk_finish_reason := Some stop |}));;
  emit (EvYield Done).

(** What [create_chat_completion] returns: the aggregate object, or the
    [EventSourceResponse] whose items are the [EvYield] effects. *)
Inductive completion :=
  | Aggregate (r : ChatCompletionResponse)
  | EventSource.

(** [POST /v1/chat/completions] (lines 297-353). *)
Definition create_chat_completion (request : ChatCompletionRequest) : M completion :=
  '(query, history) ← query_and_history (messages request);
  if default false (stream request) then
    predict query history (model request);;
    mret EventSource
  else
    let query_text := py_strip (py_lstrip [NL] query) in
    let input_text := get_prompt query_text (Some history) in
    inputs ← tokenizer input_text false None;
    store_inputs inputs;;
    kw ← get_kwargs;
    n ← tick;
    emit (EvGenerate kw);;
    let output := model_generate n kw in
    let response := decode_new_tokens output inputs in
    let response :=
      py_rstrip (NL :: lit "### Response:") (py_lstrip [NL] response) in
    t ← tick;
    mret (Aggregate {| response_model := model request;
                       message := {| role := assistant; content := response |};
                       finish_reason := stop;
                       created := time_time t |}).
End Handlers.

(** ** Concrete collaborators, to run the handlers

    A tokenizer with one token per code point, and two models: one that
    answers with a fixed text and then the end-of-sequence token 2, one
    that never emits the end-of-sequence token and fills the sequence up
    to ["max_length"]. *)
Definition char_tokenizer (window : pyval) (text : list N) (truncation : bool)
    (max_len : option pyval) : BatchEncoding :=
  {| input_ids := Z.of_N <$> text; attention_mask := (fun _ => 1) <$> text |}.

Definition prompt_tokens (kwargs : gmap string pyval) : list Z :=
  match kwargs !! "input_ids" with
  | Some (PTensor t) => t
  | _ => []
  end.

Definition replying (reply : list N) : Collaborators := {|
  tokenizer_call := char_tokenizer;
  tokenizer_decode := fun tok_id => [Z.to_N tok_id];
  eos_token_id := Some 2;
  model_generate := fun _ kwargs => prompt_tokens kwargs ++ (Z.of_N <$> reply) ++ [2];
  streamer_texts := fun _ _ => (fun c => [c]) <$> reply;
  strftime_now := fun _ => lit "2023-08-01 12:00:00";
  time_time := fun _ => 1690891200 |}.

Definition babbling : Collaborators := {|
  tokenizer_call := char_tokenizer;
  tokenizer_decode := fun tok_id => [Z.to_N tok_id];
  eos_token_id := Some 2;
  model_generate := fun _ kwargs =>
    match kwargs !! "max_length" with
    | Some (PInt m) =>
        prompt_tokens kwargs
          ++ replicate (Z.to_nat m - length (prompt_tokens kwargs)) 97
    | _ => prompt_tokens kwargs
    end;
  streamer_texts := fun _ kwargs =>
    match kwargs !! "max_length" with
    | Some (PInt m) =>
        replicate (Z.to_nat m - length (prompt_tokens kwargs)) [97%N]
    | _ => []
    end;
  strftime_now := fun _ => lit "2023-08-01 12:00:00";
  time_time := fun _ => 1690891200 |}.

(** The process state after start-up (lines 419-444) with a generation
    configuration holding the three sampling parameters. *)
Definition startup (max_len : Z) : world := {|
  generation_kwargs :=
    <["max_length" := PInt max_len]>
      (<["top_p" := PFloat float_0_95]>
         (<["temperature" := PFloat float_0_8]>
            (<["eos_token_id" := PInt 2]> (<["pad_token_id" := PInt 0]> ∅))));
  model_max_length := PInt 1024;
  trace := [];
  clock := 0 |}.

(** The argument of [rstrip] at lines 125 and 341, and the set of its
    characters: newline, [#], space, [R], [e], [s], [p], [o], [n], [:]. *)
Definition response_marker : list N := NL :: lit "### Response:".

Definition marker_charset : list N :=
  [10; 35; 32; 82; 101; 115; 112; 111; 110; 58]%N.

(** The folding of prior messages into history, as the specification
    words it: the list is read as consecutive pairs, in order; a pair whose
    roles are [user] then [assistant] becomes a turn, any other pair is
    skipped. *)
Fixpoint fold_pairs (prev_messages : list ChatMessage) : list turn :=
  match prev_messages with
  | a :: b :: rest =>
      (if Role_eqb (role a) user && Role_eqb (role b) assistant
       then [(content a, content b)] else [])
        ++ fold_pairs rest
  | _ => []
  end.

(** The split of the messages before the last one: the content of a
    leading [system] message (empty when there is none) and the messages
    that remain for the history. *)
Definition split_system (prior : list ChatMessage) : list N * list ChatMessage :=
  match prior with
  | first :: rest =>
      if Role_eqb (role first) system then (content first, rest) else ([], prior)
  | [] => ([], [])
  end.

(** ** Observations on runs

    What a client or an operator can see of a run, read off the effects. *)

(** The items handed to [EventSourceResponse], in order. *)
Definition yielded (effects : list effect) : list wire :=
  omap (fun e => match e with EvYield item => Some item | _ => None end) effects.

(** The text a client assembles from a chunk stream: the contents of the
    deltas, concatenated in order. *)
Definition delta_text (items : list wire) : list N :=
  concat (omap (fun item => match item with
                            | Chunk c => delta_content c
                            | _ => None
                            end) items).

(** The effects a run added to the trace of the world it started in. *)
Definition effects_since (before after : world) : list effect :=
  drop (length (trace before)) (trace after).

(** A history written as an OpenAI-style conversation: for each turn a
    [user] message with the query and an [assistant] message with the
    answer. *)
Fixpoint messages_of_history (h : list turn) : list ChatMessage :=
  match h with
  | [] => []
  | (q, a) :: rest =>
      {| role := user; content := q |}
        :: {| role := assistant; content := a |}
        :: messages_of_history rest
  end.

(** * Properties *)

(** ** Prompt rendering *)

Lemma fold_blocks (h : list turn) (acc : list N) :
  fold_left
    (fun prompt '(old_query, response) =>
       prompt ++ ([NL; NL] ++ lit "### Instruction:" ++ [NL] ++ old_query
                    ++ [NL; NL] ++ lit "### Response:" ++ [NL] ++ response))
    h acc
  = acc ++ concat (block <$> h).
Proof.
  revert acc. induction h as [|[oq r] h IH]; intros acc; simpl.
  - by rewrite app_nil_r.
  - rewrite IH. unfold block at 2. simpl. by rewrite <- app_assoc.
Qed.

(** C2: [get_prompt q h] is the concatenation of exactly [len(h) + 1]
    instruction/response blocks: one per historical turn, in the order of
    the history, with the old query as instruction and the old answer as
    response, followed by a block with instruction [q] and an empty
    response; for an empty or absent history it is the single block
    of [q]. *)
Theorem get_prompt_blocks (q : list N) (history : option (list turn)) :
  let blocks := turns history ++ [(q, [])] in
  get_prompt q history = concat (block <$> blocks)
  /\ length blocks = (length (turns history) + 1)%nat
  /\ take (length (turns history)) blocks = turns history
  /\ blocks !! length (turns history) = Some (q, [])
  /\ get_prompt q None = block (q, [])
  /\ get_prompt q (Some []) = block (q, []).
Proof.
  cbn zeta. repeat split.
  - destruct history as [[|t h]|]; simpl turns.
    + simpl. unfold block. simpl. by rewrite ?app_nil_r.
    + unfold get_prompt. rewrite fold_blocks. simpl app at 1.
      rewrite fmap_app, concat_app. f_equal.
      simpl. unfold block at 2. simpl. by rewrite ?app_nil_r.
    + simpl. unfold block. simpl. by rewrite ?app_nil_r.
  - by rewrite length_app.
  - by rewrite take_app_length.
  - by rewrite list_lookup_middle.
Qed.

(** A rendered transcript with one historical turn. *)
Lemma get_prompt_example :
  get_prompt (lit "q2") (Some [(lit "q1", lit "a1")])
  = [NL; NL] ++ lit "### Instruction:" ++ [NL] ++ lit "q1"
      ++ [NL; NL] ++ lit "### Response:" ++ [NL] ++ lit "a1"
      ++ [NL; NL] ++ lit "### Instruction:" ++ [NL] ++ lit "q2"
      ++ [NL; NL] ++ lit "### Response:" ++ [NL].
Proof. reflexivity. Qed.

(** ** Stripping *)

Lemma in_chars_elem_of (chars : list N) (c : N) :
  in_chars chars c = true <-> c ∈ chars.
Proof.
  unfold in_chars. rewrite existsb_exists. split.
  - intros (x & Hx & Heq). apply N.eqb_eq in Heq. subst.
    by apply list_elem_of_In.
  - intros Hc. exists c. split; [by apply list_elem_of_In | apply N.eqb_refl].
Qed.

Lemma in_chars_marker (c : N) :
  in_chars response_marker c = true <-> c ∈ marker_charset.
Proof.
  rewrite in_chars_elem_of. unfold response_marker, marker_charset, NL.
  cbn. rewrite !elem_of_cons, !elem_of_nil. tauto.
Qed.

(** What [rstrip_by] removes is a run of characters of the set, and what
    it leaves does not end in one. *)
Lemma rstrip_by_split (P : N -> bool) (s : list N) :
  exists t, s = rstrip_by P s ++ t
            /\ forallb P t = true
            /\ (forall c, last (rstrip_by P s) = Some c -> P c = false).
Proof.
  induction s as [|c s (t & Hs & Ht & Hlast)]; simpl.
  - exists []. by repeat split.
  - destruct (rstrip_by P s) as [|x r] eqn:Hr.
    + destruct (P c) eqn:Hc.
      * exists (c :: t). simpl in *. subst s. rewrite Hc, Ht. by repeat split.
      * exists t. simpl in *. subst s. repeat split; [done|].
        intros c' [= <-]. done.
    + exists t. split; [by rewrite Hs|]. split; [done|].
      intros c' Hc'. apply Hlast. by rewrite last_cons_cons in Hc'.
Qed.

(** Conversely, a trailing run of characters of the set is removed
    whole. *)
Lemma rstrip_by_run (P : N -> bool) (r t : list N) :
  forallb P t = true ->
  (forall c, last r = Some c -> P c = false) ->
  rstrip_by P (r ++ t) = r.
Proof.
  intros Ht. induction r as [|c r IH]; intros Hlast; simpl.
  - clear Hlast. induction t as [|c t IHt]; [done|].
    simpl in *. apply andb_true_iff in Ht as [Hc Ht].
    by rewrite (IHt Ht), Hc.
  - destruct r as [|x r].
    + simpl in *. rewrite (IH ltac:(done)). by rewrite (Hlast c eq_refl).
    + rewrite IH; [done|]. intros c' Hc'. apply Hlast.
      by rewrite last_cons_cons.
Qed.

Lemma lstrip_by_idemp_strip (s : list N) :
  py_strip (py_lstrip [NL] s) = py_strip s.
Proof.
  unfold py_strip, py_lstrip. f_equal.
  induction s as [|c s IH]; [done|].
  cbn [lstrip_by]. destruct (in_chars [NL] c) eqn:Hc; [|done].
  apply in_chars_elem_of in Hc. apply list_elem_of_singleton in Hc. subst c.
  rewrite IH. by replace (isspace NL) with true by reflexivity.
Qed.

(** ** Running the monad *)

Create HintDb run discriminated.

#[global] Hint Unfold mbind M_bind mret M_ret raise get_kwargs set_kwarg
  get_model_max_length set_model_max_length emit tick getitem gt
  tokenizer torch_gc generate_inputs_and_kwargs history_plus store_inputs
  start_generate_thread : run.

Ltac run :=
  autounfold with run;
  cbn [fst snd generation_kwargs model_max_length trace clock].

(** ** Parameter resolution *)

(** The whole effect of lines 95-108: the three entries are overwritten
    with the resolved values, whatever happens next; the window is
    replaced by the resolved length when it is [None] or greater; the
    comparison of unorderable values raises. *)
Lemma resolve_params_spec (json : gmap string pyval) (w : world) :
  let kw := generation_kwargs w in
  let limit := get_or_default json kw "max_generate_length" "max_length" (PInt 1024) in
  let p := get_or_default json kw "top_p" "top_p" (PFloat float_0_95) in
  let t := get_or_default json kw "temperature" "temperature" (PFloat float_0_8) in
  let shrink :=
    match model_max_length w with
    | PNone => Some true
    | window => py_gt window limit
    end in
  resolve_params json w =
    (match shrink with Some _ => Ok tt | None => Raise TypeError end,
     {| generation_kwargs :=
          <["temperature" := t]> (<["top_p" := p]> (<["max_length" := limit]> kw));
        model_max_length :=
          match shrink with Some true => limit | _ => model_max_length w end;
        trace := trace w;
        clock := clock w |}).
Proof.
  intros kw limit p t shrink.
  assert (Hp : get_or_default json (<["max_length":=limit]> kw) "top_p" "top_p"
                 (PFloat float_0_95) = p).
  { unfold get_or_default. by rewrite lookup_insert_ne. }
  assert (Ht : get_or_default json (<["top_p":=p]> (<["max_length":=limit]> kw))
                 "temperature" "temperature" (PFloat float_0_8) = t).
  { unfold get_or_default. by rewrite !lookup_insert_ne. }
  assert (Hl : <["temperature":=t]> (<["top_p":=p]> (<["max_length":=limit]> kw))
                 !! "max_length" = Some limit).
  { rewrite !lookup_insert_ne by done. apply lookup_insert_eq. }
  unfold resolve_params. run. fold kw. fold limit. rewrite Hp, Ht.
  subst shrink.
  destruct (model_max_length w) eqn:Hw; rewrite ?Hl; run; rewrite ?Hl; run;
    try done;
    destruct (py_gt _ limit) as [[]|]; run; rewrite ?Hl; run; rewrite ?Hw; done.
Qed.

(** ** The [/chat] handler *)

Section Chat.
Context `{Collaborators}.

Lemma create_item_spec (request : chat_body) (w : world) :
  let json := json_post_list request in
  let w1 := (resolve_params json w).2 in
  let prompt := py_lstrip [NL] (body_prompt request) in
  let text := py_strip (get_prompt prompt (body_history request)) in
  let limit := default (PInt 512) (json !! "max_input_length") in
  let inputs := tokenizer_call (model_max_length w1) text true (Some limit) in
  let kwargs :=
    <["input_ids" := PTensor (input_ids inputs)]>
      (<["attention_mask" := PTensor (attention_mask inputs)]>
         (generation_kwargs w1)) in
  let response :=
    py_rstrip response_marker
      (py_lstrip [NL]
         (decode_new_tokens (model_generate (clock w1) kwargs) inputs)) in
  let world_after (effects : list effect) (ticks : nat) :=
    {| generation_kwargs := generation_kwargs w1;
       model_max_length := model_max_length w1;
       trace := trace w1 ++ effects;
       clock := ticks + clock w1 |} in
  create_item request w =
    match (resolve_params json w).1 with
    | Raise e => (Raise e, w1)
    | Ok _ =>
        match generation_kwargs w1 !! "input_ids",
              generation_kwargs w1 !! "attention_mask" with
        | None, None =>
            match body_history request with
            | Some h =>
                (Ok {| answer_response := response;
                       answer_history := h ++ [(prompt, response)];
                       answer_status := 200;
                       answer_time := strftime_now (S (clock w1)) |},
                 world_after [EvTokenize text true (Some limit);
                              EvGenerate kwargs; EvTorchGc] 2%nat)
            | None =>
                (Raise TypeError,
                 world_after [EvTokenize text true (Some limit);
                              EvGenerate kwargs] 1%nat)
            end
        | _, _ =>
            (Raise TypeError,
             world_after [EvTokenize text true (Some limit)] 0%nat)
        end
    end.
Proof.
  intros json w1 prompt text limit inputs kwargs response world_after.
  unfold create_item. run. fold json.
  subst w1. destruct (resolve_params json w) as [[[]|e] w1]; [|done].
  cbn [fst snd] in *. fold prompt text limit inputs.
  destruct (generation_kwargs w1 !! "input_ids") eqn:Hi; [done|].
  destruct (generation_kwargs w1 !! "attention_mask") eqn:Ha; [done|].
  fold kwargs.
  destruct (body_history request) as [h|]; run.
  - subst world_after. cbn. rewrite <- !app_assoc. done.
  - subst world_after. cbn. rewrite <- !app_assoc. done.
Qed.
End Chat.

(** ** Validation and history reconstruction *)

Lemma mod2_even (n : nat) : (n mod 2 =? 0)%nat = Nat.even n.
Proof.
  destruct (Nat.even n) eqn:He.
  - apply Nat.even_spec in He as [k ->]. apply Nat.eqb_eq.
    rewrite Nat.mul_comm. apply Nat.Div0.mod_mul.
  - apply Nat.eqb_neq. intros Hm.
    assert (Ho : Nat.odd n = true) by (by rewrite <- Nat.negb_even, He).
    apply Nat.odd_spec in Ho as [k ->].
    rewrite Nat.add_comm, Nat.mul_comm, Nat.Div0.mod_add in Hm. discriminate.
Qed.

Lemma div2_succ_double (n : nat) : Nat.div2 (S (2 * n)) = n.
Proof. induction n as [|n IH]; [done|]. replace (2 * S n)%nat with (S (S (2 * n))) by lia. simpl in *. by rewrite IH. Qed.

Lemma pair_loop_spec (n m : nat) (pre rest : list ChatMessage) (acc : list (list N * list N)) (w : world) :
  length pre = (2 * m)%nat ->
  length rest = (2 * n)%nat ->
  pair_loop (pre ++ rest) ((fun k => 2 * k)%nat <$> seq m n) acc w
  = (Ok (acc ++ fold_pairs rest), w).
Proof.
  revert m pre rest acc. induction n as [|n IH]; intros m pre rest acc Hpre Hrest.
  - destruct rest; [|simpl in Hrest; lia]. run. simpl. by rewrite app_nil_r.
  - destruct rest as [|a [|b rest]]; [simpl in Hrest; lia..|].
    cbn [seq fmap list_fmap pair_loop]. unfold index. run.
    rewrite lookup_app_r by lia. rewrite Hpre, Nat.sub_diag. cbn [lookup list_lookup].
    run.
    assert (Hb : (pre ++ a :: b :: rest) !! (2 * m + 1)%nat = Some b).
    { rewrite lookup_app_r by lia. by replace (2 * m + 1 - length pre)%nat with 1%nat by lia. }
    assert (Hnext : pair_loop (pre ++ a :: b :: rest) ((fun k => 2 * k)%nat <$> seq (S m) n)
       = pair_loop ((pre ++ [a; b]) ++ rest) ((fun k => 2 * k)%nat <$> seq (S m) n)).
    { by rewrite <- app_assoc. }
    cbn [fold_pairs].
    destruct (Role_eqb (role a) user); cbn [andb].
    + rewrite Hb. run. destruct (Role_eqb (role b) assistant).
      * rewrite Hnext, IH; [by rewrite <- app_assoc| rewrite length_app; simpl; lia | simpl in Hrest; lia].
      * rewrite Hnext, IH; [done| rewrite length_app; simpl; lia | simpl in Hrest; lia].
    + rewrite Hnext, IH; [done| rewrite length_app; simpl; lia | simpl in Hrest; lia].
Qed.

Lemma query_and_history_spec (prior : list ChatMessage) (final : ChatMessage) (w : world) :
  query_and_history (prior ++ [final]) w =
    if Role_eqb (role final) user then
      (Ok ((split_system prior).1 ++ content final,
           if Nat.even (length (split_system prior).2)
           then fold_pairs (split_system prior).2 else []), w)
    else (Raise (HTTPException 400 "Invalid request"), w).
Proof.
  unfold query_and_history. rewrite last_snoc, removelast_last. run.
  destruct (Role_eqb (role final) user); cbn [negb]; [|done].
  assert (Hloop : forall l : list ChatMessage,
    (if (length l mod 2 =? 0)%nat then pair_loop l (range_step2 (length l)) [] else mret []) w
    = (Ok (if Nat.even (length l) then fold_pairs l else []), w)).
  { intros l. rewrite mod2_even. destruct (Nat.even (length l)) eqn:He; [|done].
    apply Nat.even_spec in He as [n Hn]. unfold range_step2. rewrite Hn, div2_succ_double.
    by rewrite (pair_loop_spec n 0 [] l []). }
  unfold split_system. destruct prior as [|first rest].
  - cbn. done.
  - destruct (Role_eqb (role first) system); cbn [fst snd]; rewrite Hloop; done.
Qed.

(** ** The [/v1/chat/completions] handler *)

Section Completions.
Context `{Collaborators}.

Lemma predict_loop_spec (model_id : list N) (streamer : list (list N)) (w : world) :
  predict_loop model_id streamer w =
    (Ok tt,
     {| generation_kwargs := generation_kwargs w;
        model_max_length := model_max_length w;
        trace := trace w ++
          ((fun new_text =>
              EvYield (Chunk {| chunk_model := model_id;
                                delta_role := None;
                                delta_content := Some new_text;
                                chunk_finish_reason := None |}))
             <$> filter (fun new_text => new_text <> []) streamer);
        clock := clock w |}).
Proof.
  revert w. induction streamer as [|new_text rest IH]; intros w.
  - cbn. rewrite app_nil_r. by destruct w.
  - cbn [predict_loop]. destruct new_text as [|c new_text].
    + cbn [length Nat.eqb]. rewrite IH. rewrite filter_cons_False by auto. done.
    + cbn [length Nat.eqb]. run. rewrite IH. cbn [trace generation_kwargs model_max_length clock].
      rewrite filter_cons_True by done. rewrite fmap_cons, <- app_assoc. done.
Qed.

Lemma create_chat_completion_spec (request : ChatCompletionRequest)
    (query : list N) (history : list (list N * list N)) (w : world) :
  query_and_history (messages request) w = (Ok (query, history), w) ->
  let text :=
    if default false (stream request) then get_prompt query (Some history)
    else get_prompt (py_strip (py_lstrip [NL] query)) (Some history) in
  let inputs := tokenizer_call (model_max_length w) text false None in
  let kw :=
    <["attention_mask" := PTensor (attention_mask inputs)]>
      (<["input_ids" := PTensor (input_ids inputs)]> (generation_kwargs w)) in
  let response :=
    py_rstrip response_marker
      (py_lstrip [NL] (decode_new_tokens (model_generate (clock w) kw) inputs)) in
  let chunk role text reason :=
    EvYield (Chunk {| chunk_model := model request; delta_role := role;
                      delta_content := text; chunk_finish_reason := reason |}) in
  create_chat_completion request w =
    if default false (stream request) then
      (Ok EventSource,
       {| generation_kwargs := <["streamer" := PStreamer]> kw;
          model_max_length := model_max_length w;
          trace := trace w ++
            [chunk (Some assistant) None None; EvTokenize text false None;
             EvThreadStart (<["streamer" := PStreamer]> kw)]
            ++ ((fun new_text => chunk None (Some new_text) None)
                  <$> filter (fun new_text => new_text <> [])
                        (streamer_texts (clock w) (<["streamer" := PStreamer]> kw)))
            ++ [chunk None None (Some stop); EvYield Done];
          clock := S (clock w) |})
    else
      (Ok (Aggregate {| response_model := model request;
                        message := {| role := assistant; content := response |};
                        finish_reason := stop;
                        created := time_time (S (clock w)) |}),
       {| generation_kwargs := kw;
          model_max_length := model_max_length w;
          trace := trace w ++ [EvTokenize text false None; EvGenerate kw];
          clock := S (S (clock w)) |}).
Proof.
  intros Hq text inputs kw response chunk.
  unfold create_chat_completion. run. rewrite Hq.
  subst text. destruct (default false (stream request)).
  - unfold predict. run. rewrite predict_loop_spec.
    cbn [fst snd generation_kwargs model_max_length trace clock].
    fold inputs. fold kw. subst chunk. cbn beta.
    rewrite <- !app_assoc. reflexivity.
  - run. fold inputs. fold kw. 
    rewrite <- !app_assoc. reflexivity.
Qed.
End Completions.

(** ** The [/stream_chat] handler *)

Lemma event_loop_globals (prompt : list N) (history : option (list (list N * list N)))
    (is_disconnected : nat -> bool) (streamer : list (list N)) :
  forall (k : nat) (last_msg : list N) (bound : option (list N)) (w : world),
    let w' := (event_loop prompt history is_disconnected k streamer last_msg bound w).2 in
    generation_kwargs w' = generation_kwargs w
    /\ model_max_length w' = model_max_length w
    /\ clock w' = clock w.
Proof.
  induction streamer as [|new_text rest IH]; intros k last_msg bound w; [done|].
  cbn [event_loop]. run.
  destruct (is_disconnected k); [done|].
  destruct history as [h|]; [|done]. run.
  match goal with |- context [event_loop ?p ?h ?d ?k' rest ?l ?b ?w0] =>
    specialize (IH k' l b w0);
    destruct (event_loop p h d k' rest l b w0) as [[[]|] w3] end; done.
Qed.

(** The loop up to the first poll that reports the disconnect: [n] rounds
    of a poll and a [new_message], then the poll that answers [True] and
    the [break], which leaves [new_text] bound to the text just taken from
    the streamer. *)
Lemma event_loop_break (prompt : list N) (h : list (list N * list N))
    (is_disconnected : nat -> bool) (n : nat) :
  forall (k : nat) (streamer : list (list N)) (last_msg : list N)
         (bound : option (list N)) (w : world) (new_text : list N),
    streamer !! n = Some new_text ->
    (forall j, (j < n)%nat -> is_disconnected (k + j)%nat = false) ->
    is_disconnected (k + n)%nat = true ->
    exists sent,
      length sent = (2 * n)%nat
      /\ event_loop prompt (Some h) is_disconnected k streamer last_msg bound w
         = (Ok (last_msg ++ concat (take n streamer), Some new_text),
            {| generation_kwargs := generation_kwargs w;
               model_max_length := model_max_length w;
               trace := trace w ++ sent ++ [EvPoll true];
               clock := clock w |}).
Proof.
  induction n as [|n IH]; intros k streamer last_msg bound w new_text Hn Hfalse Htrue.
  - destruct streamer as [|t rest]; [done|]. injection Hn as ->.
    exists []. split; [done|]. cbn [event_loop]. run.
    rewrite Nat.add_0_r in Htrue. rewrite Htrue. cbn. by rewrite app_nil_r.
  - destruct streamer as [|t rest]; [done|]. cbn in Hn.
    assert (H0 : is_disconnected k = false).
    { rewrite <- (Nat.add_0_r k). apply Hfalse. lia. }
    edestruct (IH (S k) rest (last_msg ++ t) (Some t)) as (sent & Hlen & Hrun); [exact Hn| | |].
    { intros j Hj. replace (S k + j)%nat with (k + S j)%nat by lia. apply Hfalse. lia. }
    { by replace (S k + n)%nat with (k + S n)%nat by lia. }
    eexists (EvPoll false :: _ :: sent). split; [simpl; lia|].
    cbn [event_loop]. run. rewrite H0. run. rewrite Hrun.
    cbn [generation_kwargs model_max_length trace clock take concat].
    rewrite <- !app_assoc. reflexivity.
Qed.

Section Stream.
Context `{Collaborators}.

(** Whatever its outcome, [stream_chat] leaves the window as parameter
    resolution set it, and touches no entry of [generation_kwargs] but the
    tokenizer outputs and the streamer. *)
Lemma stream_chat_globals (request : chat_body) (is_disconnected : nat -> bool)
    (w : world) (key : string) :
  let w1 := (resolve_params (json_post_list request) w).2 in
  let w' := (stream_chat request is_disconnected w).2 in
  key <> "input_ids" -> key <> "attention_mask" -> key <> "streamer" ->
  model_max_length w' = model_max_length w1
  /\ generation_kwargs w' !! key = generation_kwargs w1 !! key.
Proof.
  intros w1 w' Hk1 Hk2 Hk3. subst w1 w'.
  unfold stream_chat, event_generator. run.
  destruct (resolve_params (json_post_list request) w) as [[[]|e] w1]; [|done].
  cbn [snd].
  match goal with |- context [event_loop ?p ?h ?d ?k ?s ?l ?b ?w0] =>
    pose proof (event_loop_globals p h d s k l b w0) as (Hkw & Hm & _);
    destruct (event_loop p h d k s l b w0) as [[[last_msg [new_text|]]|e] w3] end;
    cbn [snd generation_kwargs model_max_length] in *; run;
    try (destruct (body_history request); run);
    cbn [snd generation_kwargs model_max_length] in *;
    rewrite Hkw, Hm, !lookup_insert_ne by done; done.
Qed.

(** C8: the claim is that nothing is sent once the disconnect is detected.
    The code does otherwise: when the poll before the [n]-th text is the
    first to report the disconnect, the [break] leaves the loop and the
    statements after it run, so the generator still yields the [finish]
    event, carrying the text that was never sent as a [new_message], and
    then collects garbage.  [sent] are the [n] rounds before the
    detection. *)
Theorem finish_event_after_disconnect (request : chat_body)
    (is_disconnected : nat -> bool) (w w1 : world)
    (h : list (list N * list N)) (n : nat) (new_text : list N) :
  let text := get_prompt (body_prompt request) (Some h) in
  let limit := default (PInt 512) (json_post_list request !! "max_input_length") in
  let inputs := tokenizer_call (model_max_length w1) text true (Some limit) in
  let kw :=
    <["streamer" := PStreamer]>
      (<["attention_mask" := PTensor (attention_mask inputs)]>
         (<["input_ids" := PTensor (input_ids inputs)]> (generation_kwargs w1))) in
  resolve_params (json_post_list request) w = (Ok tt, w1) ->
  body_history request = Some h ->
  streamer_texts (clock w1) kw !! n = Some new_text ->
  (forall j, (j < n)%nat -> is_disconnected j = false) ->
  is_disconnected n = true ->
  exists sent last_msg,
    length sent = (2 * n)%nat
    /\ stream_chat request is_disconnected w =
       (Ok tt,
        {| generation_kwargs := kw;
           model_max_length := model_max_length w1;
           trace := trace w1
             ++ [EvTokenize text true (Some limit); EvThreadStart kw]
             ++ sent
             ++ [EvPoll true;
                 EvYield (Sse {| event := "finish"; id := "finish_id";
                                 retry := 15000;
                                 data := {| data_response := new_text;
                                            data_history :=
                                              h ++ [(body_prompt request, last_msg)];
                                            data_finish := true |} |});
                 EvTorchGc];
           clock := S (clock w1) |}).
Proof.
  intros text limit inputs kw Hres Hh Hn Hfalse Htrue.
  unfold stream_chat, event_generator. run. rewrite Hres, Hh.
  fold text limit inputs kw.
  match goal with |- context [event_loop ?p (Some h) ?d 0%nat ?s ?l ?b ?w0] =>
    destruct (event_loop_break p h d n 0%nat s l b w0 new_text) as (sent & Hlen & Hrun)
  end; [exact Hn | exact Hfalse | exact Htrue |].
  exists sent, (concat (take n (streamer_texts (clock w1) kw))).
  split; [exact Hlen|].
  rewrite Hrun. run. cbn [app]. rewrite <- !app_assoc. reflexivity.
Qed.
End Stream.

(** ** The tokenizer window *)

Lemma py_gt_int (a b : Z) : py_gt (PInt a) (PInt b) = Some (b <? a).
Proof.
  cbn. rewrite Z.min_id, Z.sub_diag. cbn. by rewrite !Z.mul_1_r.
Qed.

Section Window.
Context `{Collaborators}.

Lemma create_item_globals (request : chat_body) (w : world) :
  let w1 := (resolve_params (json_post_list request) w).2 in
  let w' := (create_item request w).2 in
  model_max_length w' = model_max_length w1
  /\ generation_kwargs w' = generation_kwargs w1.
Proof.
  intros w1 w'. subst w'. rewrite create_item_spec. fold w1.
  repeat case_match; done.
Qed.

(** C1 (amended): on [/chat] and [/stream_chat], when the resolved maximum
    generate length is the integer [limit] and the window is [None] or an
    integer, then after the request, whatever its outcome, the process-wide
    ["max_length"] is [limit] and the tokenizer window is the smaller of
    the old window and [limit] ([limit] itself for [None]): the window
    never exceeds the effective length, and it is lowered, never raised. *)
Theorem window_bounded_by_max_length (request : chat_body)
    (is_disconnected : nat -> bool) (w : world) (limit : Z) (window : option Z) :
  get_or_default (json_post_list request) (generation_kwargs w)
    "max_generate_length" "max_length" (PInt 1024) = PInt limit ->
  model_max_length w = from_option PInt PNone window ->
  forall w',
    w' = (create_item request w).2
    \/ w' = (stream_chat request is_disconnected w).2 ->
    generation_kwargs w' !! "max_length" = Some (PInt limit)
    /\ exists window',
         model_max_length w' = PInt window'
         /\ window' <= limit
         /\ window' = match window with
                      | Some z => Z.min z limit
                      | None => limit
                      end.
Proof.
  intros Hlimit Hwindow w' Hw'.
  assert (Hw1 : generation_kwargs (resolve_params (json_post_list request) w).2
                  !! "max_length" = Some (PInt limit)
                /\ model_max_length (resolve_params (json_post_list request) w).2
                   = PInt match window with
                          | Some z => Z.min z limit
                          | None => limit
                          end).
  { rewrite resolve_params_spec. cbn [snd generation_kwargs model_max_length].
    rewrite Hlimit, Hwindow. split.
    - rewrite !lookup_insert_ne by done. apply lookup_insert_eq.
    - destruct window as [z|]; cbn [from_option]; [|done].
      rewrite py_gt_int. destruct (Z.ltb_spec limit z); f_equal; lia. }
  destruct Hw1 as [Hkw Hm].
  assert (Hgoal : generation_kwargs w' !! "max_length" = Some (PInt limit)
                  /\ model_max_length w'
                     = PInt match window with
                            | Some z => Z.min z limit
                            | None => limit
                            end).
  { destruct Hw' as [-> | ->].
    - destruct (create_item_globals request w) as [-> ->]. done.
    - destruct (stream_chat_globals request is_disconnected w "max_length")
        as [-> ->]; done. }
  destruct Hgoal as [-> ->]. split; [done|].
  eexists. split; [done|]. split; [|done]. destruct window; lia.
Qed.
End Window.

Lemma window_bounded_by_max_length_witness :
  let request :=
    {| body_prompt := lit "hi"; body_history := Some [];
       json_post_list := <["max_generate_length" := PInt 512]> ∅ |} in
  let w' := (create_item (H := replying (lit "ok")) request (startup 1024)).2 in
  generation_kwargs w' !! "max_length" = Some (PInt 512)
  /\ exists window',
       model_max_length w' = PInt window'
       /\ window' <= 512
       /\ window' = Z.min 1024 512.
Proof.
  intros request w'.
  apply (window_bounded_by_max_length (H := replying (lit "ok")) request
           (fun _ => false) (startup 1024) 512 (Some 1024));
    [reflexivity | reflexivity | left; reflexivity].
Defined.

(** C1, as stated, fails: a request for 2048 tokens against a window of
    1024 leaves the window at 1024, below the effective length, on both
    endpoints. *)
Lemma window_not_enlarged_to_request :
  let request :=
    {| body_prompt := lit "hi"; body_history := Some [];
       json_post_list := <["max_generate_length" := PInt 2048]> ∅ |} in
  let w := startup 1024 in
  let chat := (create_item (H := replying (lit "ok")) request w).2 in
  let streamed :=
    (stream_chat (H := replying (lit "ok")) request (fun _ => false) w).2 in
  model_max_length w = PInt 1024
  /\ generation_kwargs chat !! "max_length" = Some (PInt 2048)
  /\ model_max_length chat = PInt 1024
  /\ generation_kwargs streamed !! "max_length" = Some (PInt 2048)
  /\ model_max_length streamed = PInt 1024
  /\ 1024 < 2048.
Proof. vm_compute. repeat split. Qed.

(** ** Validation, history and finish reason of [/v1/chat/completions] *)

Section CompletionClaims.
Context `{Collaborators}.

(** A request whose last message is from the user is served. *)
Lemma create_chat_completion_ok (request : ChatCompletionRequest) (w : world)
    (prior : list ChatMessage) (final : ChatMessage) :
  messages request = prior ++ [final] ->
  role final = user ->
  exists res w', create_chat_completion request w = (Ok res, w').
Proof.
  intros Hm Hr.
  pose proof (query_and_history_spec prior final w) as Hq.
  rewrite Hr in Hq. cbn [Role_eqb] in Hq. rewrite <- Hm in Hq.
  rewrite (create_chat_completion_spec request _ _ w Hq).
  destruct (default false (stream request)); eauto.
Qed.

(** An empty [messages] list: [messages[-1]] raises. *)
Lemma create_chat_completion_empty (request : ChatCompletionRequest) (w : world) :
  messages request = [] ->
  create_chat_completion request w = (Raise IndexError, w).
Proof.
  intros Hm. unfold create_chat_completion, query_and_history. run.
  by rewrite Hm.
Qed.

(** A last message that is not from the user: the role check raises. *)
Lemma create_chat_completion_rejected (request : ChatCompletionRequest)
    (w : world) (prior : list ChatMessage) (final : ChatMessage) :
  messages request = prior ++ [final] ->
  role final <> user ->
  create_chat_completion request w
  = (Raise (HTTPException 400 "Invalid request"), w).
Proof.
  intros Hm Hr. unfold create_chat_completion. run.
  rewrite Hm, query_and_history_spec.
  destruct (role final); [done| |]; reflexivity.
Qed.

(** C5: when the last message of a non-empty [messages] list is not from
    the user, the handler raises [HTTPException 400] and the world is
    unchanged: nothing was tokenized, no generation or thread was started,
    no default was touched.  When it is from the user, the request is
    served. *)
Theorem last_message_role_validation (request : ChatCompletionRequest) (w : world)
    (prior : list ChatMessage) (final : ChatMessage) :
  messages request = prior ++ [final] ->
  match role final with
  | user => exists res w', create_chat_completion request w = (Ok res, w')
  | _ =>
      create_chat_completion request w
      = (Raise (HTTPException 400 "Invalid request"), w)
  end.
Proof.
  intros Hm. destruct (role final) eqn:Hr.
  - by eapply create_chat_completion_ok.
  - eapply create_chat_completion_rejected; [exact Hm|]. by rewrite Hr.
  - eapply create_chat_completion_rejected; [exact Hm|]. by rewrite Hr.
Qed.

(** C6: for a request that ends with a user message, the query is the
    content of a leading [system] message (if there is one) followed by
    the content of the last message; the remaining prior messages give the
    history: their consecutive [(user, assistant)] pairs in order, other
    pairs skipped, and the empty history when their number is odd.  No
    error is raised, and the handler tokenizes the prompt rendered from
    this query and this history. *)
Theorem history_reconstruction (request : ChatCompletionRequest) (w : world)
    (prior : list ChatMessage) (final : ChatMessage) :
  messages request = prior ++ [final] ->
  role final = user ->
  let query := (split_system prior).1 ++ content final in
  let rest := (split_system prior).2 in
  let history := if Nat.even (length rest) then fold_pairs rest else [] in
  query_and_history (messages request) w = (Ok (query, history), w)
  /\ exists res w',
       create_chat_completion request w = (Ok res, w')
       /\ EvTokenize
            (if default false (stream request)
             then get_prompt query (Some history)
             else get_prompt (py_strip (py_lstrip [NL] query)) (Some history))
            false None ∈ trace w'.
Proof.
  intros Hm Hr query rest history.
  pose proof (query_and_history_spec prior final w) as Hq.
  rewrite Hr in Hq. cbn [Role_eqb] in Hq. rewrite <- Hm in Hq.
  split; [exact Hq|].
  rewrite (create_chat_completion_spec request _ _ w Hq).
  fold query rest history.
  destruct (default false (stream request)); do 2 eexists; (split; [reflexivity|]);
    cbn [trace]; rewrite !elem_of_app, !elem_of_cons; auto.
Qed.

(** C9: with an empty [messages] list the handler raises [IndexError] at
    [messages[-1]], not the [HTTPException] of the role check, and the
    world is unchanged. *)
Theorem empty_messages_index_error (request : ChatCompletionRequest) (w : world) :
  messages request = [] ->
  create_chat_completion request w = (Raise IndexError, w)
  /\ forall status_code detail w',
       create_chat_completion request w
       <> (Raise (HTTPException status_code detail), w').
Proof.
  intros Hm. rewrite (create_chat_completion_empty request w Hm).
  split; [reflexivity|]. intros status_code detail w'. discriminate.
Qed.

(** The role check is reached, and can reject, only when [messages] is not
    empty; [IndexError] arises only when it is. *)
Lemma create_chat_completion_errors (request : ChatCompletionRequest) (w w' : world)
    (e : pyerr) :
  create_chat_completion request w = (Raise e, w') ->
  (e = IndexError /\ messages request = [])
  \/ (e = HTTPException 400 "Invalid request"
      /\ exists prior final, messages request = prior ++ [final] /\ role final <> user).
Proof.
  intros Hrun.
  destruct (messages request) as [|m ms _] eqn:Hm using rev_ind.
  - left. split; [|done].
    rewrite (create_chat_completion_empty request w Hm) in Hrun. congruence.
  - right.
    assert (Hdec : role m = user \/ role m <> user)
      by (destruct (role m); auto).
    destruct Hdec as [Hr|Hr].
    + destruct (create_chat_completion_ok request w ms m Hm Hr) as (res & w2 & Hv).
      congruence.
    + rewrite (create_chat_completion_rejected request w ms m Hm Hr) in Hrun.
      split; [congruence|]. by exists ms, m.
Qed.

(** C3 (amended): every completed generation of [/v1/chat/completions]
    reports the finish reason ["stop"], whatever made the model halt: the
    aggregate response carries it, and a stream ends with one chunk that
    carries it, after chunks that carry none, before the [DONE] marker. *)
Theorem finish_reason_always_stop (request : ChatCompletionRequest) (w : world)
    (prior : list ChatMessage) (final : ChatMessage) :
  messages request = prior ++ [final] ->
  role final = user ->
  if default false (stream request) then
    exists w' sent,
      create_chat_completion request w = (Ok EventSource, w')
      /\ trace w' = trace w ++ sent
           ++ [EvYield (Chunk {| chunk_model := model request;
                                 delta_role := None; delta_content := None;
                                 chunk_finish_reason := Some stop |});
               EvYield Done]
      /\ forall c, EvYield (Chunk c) ∈ sent -> chunk_finish_reason c = None
  else
    exists r w',
      create_chat_completion request w = (Ok (Aggregate r), w')
      /\ finish_reason r = stop.
Proof.
  intros Hm Hr.
  pose proof (query_and_history_spec prior final w) as Hq.
  rewrite Hr in Hq. cbn [Role_eqb] in Hq. rewrite <- Hm in Hq.
  rewrite (create_chat_completion_spec request _ _ w Hq).
  destruct (default false (stream request)).
  - eexists _, _. split; [reflexivity|]. cbn [trace].
    split; [f_equal; apply app_assoc|].
    intros c. rewrite elem_of_app, !elem_of_cons, elem_of_nil, list_elem_of_fmap.
    intros [[Hc|[Hc|[Hc|[]]]]|(t & Hc & _)]; try discriminate Hc;
      by injection Hc as ->.
  - by eexists _, _.
Qed.
End CompletionClaims.

Lemma last_message_role_validation_witness :
  let hi := {| role := user; content := lit "Hi" |} in
  let hello := {| role := assistant; content := lit "Hello" |} in
  let rejected :=
    {| model := lit "x"; messages := [hi; hello]; temperature := None;
       top_p := None; max_length := None; stream := None |} in
  let served :=
    {| model := lit "x"; messages := [hi; hello; hi]; temperature := None;
       top_p := None; max_length := None; stream := None |} in
  create_chat_completion (H := replying (lit "ok")) rejected (startup 1024)
  = (Raise (HTTPException 400 "Invalid request"), startup 1024)
  /\ exists res w',
       create_chat_completion (H := replying (lit "ok")) served (startup 1024)
       = (Ok res, w').
Proof.
  intros hi hello rejected served. split.
  - exact (last_message_role_validation (H := replying (lit "ok")) rejected
             (startup 1024) [hi] hello eq_refl).
  - exact (last_message_role_validation (H := replying (lit "ok")) served
             (startup 1024) [hi; hello] hi eq_refl).
Defined.

Lemma history_reconstruction_witness :
  let msg r text := {| role := r; content := lit text |} in
  let request :=
    {| model := lit "x";
       messages := [msg system "Be brief. "; msg user "q1"; msg assistant "a1";
                    msg assistant "x"; msg user "y"; msg user "Hi"];
       temperature := None; top_p := None; max_length := None;
       stream := None |} in
  let w := startup 1024 in
  query_and_history (messages request) w
  = (Ok (lit "Be brief. Hi", [(lit "q1", lit "a1")]), w)
  /\ exists res w',
       create_chat_completion (H := replying (lit "ok")) request w = (Ok res, w')
       /\ EvTokenize
            (get_prompt (lit "Be brief. Hi") (Some [(lit "q1", lit "a1")]))
            false None ∈ trace w'.
Proof.
  intros msg request w.
  exact (history_reconstruction (H := replying (lit "ok")) request w
           [msg system "Be brief. "; msg user "q1"; msg assistant "a1";
            msg assistant "x"; msg user "y"]
           (msg user "Hi") eq_refl eq_refl).
Defined.

Lemma empty_messages_index_error_witness :
  let request :=
    {| model := lit "x"; messages := []; temperature := None; top_p := None;
       max_length := None; stream := None |} in
  create_chat_completion (H := replying (lit "ok")) request (startup 1024)
  = (Raise IndexError, startup 1024).
Proof.
  intros request.
  exact (proj1 (empty_messages_index_error (H := replying (lit "ok")) request
                  (startup 1024) eq_refl)).
Defined.

Lemma finish_reason_always_stop_witness :
  let hi := {| role := user; content := lit "Hi" |} in
  let request :=
    {| model := lit "x"; messages := [hi]; temperature := None; top_p := None;
       max_length := None; stream := Some false |} in
  exists r w',
    create_chat_completion (H := babbling) request (startup 40)
    = (Ok (Aggregate r), w')
    /\ finish_reason r = stop.
Proof.
  intros hi request.
  exact (finish_reason_always_stop (H := babbling) request (startup 40) [] hi
           eq_refl eq_refl).
Defined.

(** C3, as stated, fails: a model that never emits the end-of-sequence
    token (2) and fills the sequence up to ["max_length"] = 40 still gets
    the finish reason ["stop"], in the aggregate response and in the
    stream. *)
Lemma length_bound_reports_stop :
  let hi := {| role := user; content := lit "Hi" |} in
  let request (streamed : bool) :=
    {| model := lit "x"; messages := [hi]; temperature := None; top_p := None;
       max_length := None; stream := Some streamed |} in
  exists r w' kwargs w'',
    create_chat_completion (H := babbling) (request false) (startup 40)
    = (Ok (Aggregate r), w')
    /\ last (trace w') = Some (EvGenerate kwargs)
    /\ kwargs !! "max_length" = Some (PInt 40)
    /\ length (model_generate (Collaborators := babbling) 0 kwargs) = 40%nat
    /\ forallb (fun tok_id => negb (tok_id =? 2))
         (model_generate (Collaborators := babbling) 0 kwargs) = true
    /\ finish_reason r = stop
    /\ finish_reason r <> length_
    /\ create_chat_completion (H := babbling) (request true) (startup 40)
       = (Ok EventSource, w'')
    /\ last (removelast (trace w''))
       = Some (EvYield (Chunk {| chunk_model := lit "x"; delta_role := None;
                                 delta_content := None;
                                 chunk_finish_reason := Some stop |})).
Proof.
  intros hi request. eexists _, _, _, _.
  do 6 (split; [vm_compute; reflexivity|]).
  split; [vm_compute; discriminate|].
  split; vm_compute; reflexivity.
Qed.

(** ** Resolution of the sampling parameters *)

Section Parameters.
Context `{Collaborators}.

(** On [/chat] and [/stream_chat] each of the three parameters is the
    value of the request if the key is present, else the process-wide
    entry, else the fallback, and it replaces the process-wide entry,
    whatever the outcome of the request. *)
Lemma chat_parameters_resolved (request : chat_body)
    (is_disconnected : nat -> bool) (w w' : world) :
  w' = (create_item request w).2
  \/ w' = (stream_chat request is_disconnected w).2 ->
  let json := json_post_list request in
  let kw := generation_kwargs w in
  generation_kwargs w' !! "max_length"
  = Some (get_or_default json kw "max_generate_length" "max_length" (PInt 1024))
  /\ generation_kwargs w' !! "top_p"
     = Some (get_or_default json kw "top_p" "top_p" (PFloat float_0_95))
  /\ generation_kwargs w' !! "temperature"
     = Some (get_or_default json kw "temperature" "temperature" (PFloat float_0_8)).
Proof.
  intros Hw' json kw.
  assert (Hkeys : forall key,
            key <> "input_ids" -> key <> "attention_mask" -> key <> "streamer" ->
            generation_kwargs w' !! key
            = generation_kwargs (resolve_params json w).2 !! key).
  { intros key Hk1 Hk2 Hk3. destruct Hw' as [-> | ->].
    - by destruct (create_item_globals request w) as [_ ->].
    - by apply stream_chat_globals. }
  rewrite resolve_params_spec in Hkeys. cbn [snd generation_kwargs] in Hkeys.
  fold kw in Hkeys.
  rewrite !Hkeys by done.
  rewrite !lookup_insert_eq, !lookup_insert_ne by done.
  rewrite !lookup_insert_eq, !lookup_insert_ne by done.
  by rewrite !lookup_insert_eq.
Qed.

(** [create_chat_completion] never reads the [temperature], [top_p] and
    [max_length] fields of its request. *)
Lemma create_chat_completion_parameters_unused
    (request request' : ChatCompletionRequest) (w : world) :
  model request' = model request ->
  messages request' = messages request ->
  stream request' = stream request ->
  create_chat_completion request' w = create_chat_completion request w.
Proof.
  destruct request, request'. cbn. by intros -> -> ->.
Qed.

(** Nor does it write the process-wide defaults: the entries other than
    the tokenizer outputs and the streamer are as before the request. *)
Lemma create_chat_completion_defaults (request : ChatCompletionRequest)
    (w : world) (key : string) :
  key <> "input_ids" -> key <> "attention_mask" -> key <> "streamer" ->
  generation_kwargs (create_chat_completion request w).2 !! key
  = generation_kwargs w !! key.
Proof.
  intros Hk1 Hk2 Hk3.
  destruct (messages request) as [|m ms _] eqn:Hm using rev_ind.
  - by rewrite (create_chat_completion_empty request w Hm).
  - pose proof (query_and_history_spec ms m w) as Hq. rewrite <- Hm in Hq.
    destruct (Role_eqb (role m) user).
    + rewrite (create_chat_completion_spec request _ _ w Hq).
      destruct (default false (stream request));
        cbn [snd generation_kwargs]; by rewrite !lookup_insert_ne.
    + unfold create_chat_completion. run. by rewrite Hq.
Qed.
End Parameters.

(** C4: the claim covers [/v1/chat/completions], whose request type
    declares [temperature], [top_p] and [max_length].  The handler ignores
    them: a request with temperature 0.1, top_p 0.5 and max_length 64
    generates with the process-wide 0.8, 0.95 and 1024, leaves these
    defaults as they were, and is answered as the request without the
    three fields is. *)
Theorem chat_completions_ignores_request_parameters :
  let hi := {| role := user; content := lit "Hi" |} in
  let request :=
    {| model := lit "x"; messages := [hi];
       temperature := Some (S754_finite false 7205759403792794 (-56));
       top_p := Some (S754_finite false 4503599627370496 (-53));
       max_length := Some 64; stream := Some false |} in
  let bare :=
    {| model := lit "x"; messages := [hi]; temperature := None;
       top_p := None; max_length := None; stream := Some false |} in
  let w := startup 1024 in
  let run := create_chat_completion (H := replying (lit "ok")) request w in
  (exists kwargs,
     last (trace run.2) = Some (EvGenerate kwargs)
     /\ kwargs !! "temperature" = Some (PFloat float_0_8)
     /\ kwargs !! "top_p" = Some (PFloat float_0_95)
     /\ kwargs !! "max_length" = Some (PInt 1024))
  /\ generation_kwargs run.2 !! "temperature" = Some (PFloat float_0_8)
  /\ generation_kwargs run.2 !! "top_p" = Some (PFloat float_0_95)
  /\ generation_kwargs run.2 !! "max_length" = Some (PInt 1024)
  /\ run = create_chat_completion (H := replying (lit "ok")) bare w.
Proof.
  intros hi request bare w run. split.
  - eexists. do 3 (split; [vm_compute; reflexivity|]). vm_compute; reflexivity.
  - do 3 (split; [vm_compute; reflexivity|]). reflexivity.
Qed.

(** ** Stripping of the query before rendering *)

Lemma lstrip_by_run (P : N -> bool) (t r : list N) :
  forallb P t = true ->
  (forall c, head r = Some c -> P c = false) ->
  lstrip_by P (t ++ r) = r.
Proof.
  intros Ht Hr. induction t as [|c t IH]; simpl in *.
  - destruct r as [|c r]; [done|]. simpl. by rewrite (Hr c eq_refl).
  - apply andb_true_iff in Ht as [-> Ht]. by apply IH.
Qed.

Lemma strip_by_run (P : N -> bool) (lead core trail : list N) :
  forallb P lead = true ->
  forallb P trail = true ->
  (forall c, head core = Some c -> P c = false) ->
  (forall c, last core = Some c -> P c = false) ->
  rstrip_by P (lstrip_by P (lead ++ core ++ trail)) = core.
Proof.
  intros Hlead Htrail Hhead Hlast. destruct core as [|c core].
  - cbn [app]. rewrite <- (app_nil_r (lead ++ trail)).
    rewrite lstrip_by_run; [done| |done].
    rewrite forallb_app. by rewrite Hlead, Htrail.
  - rewrite lstrip_by_run; [by apply rstrip_by_run|done|].
    intros c' [= <-]. by apply Hhead.
Qed.

Section Stripping.
Context `{Collaborators}.

(** C7 (amended): [/chat] strips the leading newlines of the raw prompt,
    and only those, before rendering: for a prompt of [n] newlines
    followed by [q], which does not start with a newline, the prompt it
    tokenizes is rendered from [q], trailing newlines included.
    Non-streaming [/v1/chat/completions] strips all leading and trailing
    whitespace of its query: for a query [lead ++ core ++ trail] with
    [lead] and [trail] whitespace and [core] neither starting nor ending
    with whitespace, the prompt it tokenizes is rendered from [core]. *)
Theorem query_stripping_by_endpoint
    (body : chat_body) (w w1 : world) (n : nat) (q : list N)
    (request : ChatCompletionRequest) (w2 : world)
    (prior : list ChatMessage) (final : ChatMessage)
    (lead core trail : list N) :
  resolve_params (json_post_list body) w = (Ok tt, w1) ->
  body_prompt body = replicate n NL ++ q ->
  (forall c, head q = Some c -> c <> NL) ->
  messages request = prior ++ [final] ->
  role final = user ->
  default false (stream request) = false ->
  (split_system prior).1 ++ content final = lead ++ core ++ trail ->
  forallb isspace lead = true ->
  forallb isspace trail = true ->
  (forall c, head core = Some c -> isspace c = false) ->
  (forall c, last core = Some c -> isspace c = false) ->
  let rest := (split_system prior).2 in
  let history := if Nat.even (length rest) then fold_pairs rest else [] in
  trace (create_item body w).2 !! length (trace w)
  = Some (EvTokenize (py_strip (get_prompt q (body_history body))) true
            (Some (default (PInt 512) (json_post_list body !! "max_input_length"))))
  /\ trace (create_chat_completion request w2).2 !! length (trace w2)
     = Some (EvTokenize (get_prompt core (Some history)) false None).
Proof.
  intros Hres Hprompt Hq Hm Hr Hstream Hquery Hlead Htrail Hhead Hlast
    rest history.
  split.
  - assert (Hstrip : py_lstrip [NL] (body_prompt body) = q).
    { rewrite Hprompt. apply lstrip_by_run.
      - clear. by induction n as [|n IH].
      - intros c Hc. destruct (in_chars [NL] c) eqn:Hin; [|done].
        apply in_chars_elem_of, list_elem_of_singleton in Hin.
        by destruct (Hq c Hc). }
    assert (Htrace : trace w1 = trace w).
    { rewrite resolve_params_spec in Hres. by injection Hres as _ <-. }
    rewrite create_item_spec, Hres. cbn [fst snd]. rewrite Hstrip, <- Htrace.
    repeat case_match; cbn [snd trace];
      rewrite lookup_app_r, Nat.sub_diag by lia; done.
  - pose proof (query_and_history_spec prior final w2) as Hqh.
    rewrite Hr in Hqh. cbn [Role_eqb] in Hqh. rewrite <- Hm in Hqh.
    rewrite (create_chat_completion_spec request _ _ w2 Hqh), Hstream.
    cbn [snd trace]. rewrite lookup_app_r, Nat.sub_diag by lia. cbn.
    rewrite lstrip_by_idemp_strip, Hquery.
    unfold py_strip. by rewrite strip_by_run.
Qed.

(** The two streaming paths render the query as it comes. *)
Lemma streamed_query_not_stripped
    (body : chat_body) (is_disconnected : nat -> bool) (w w1 : world)
    (request : ChatCompletionRequest) (w2 : world)
    (prior : list ChatMessage) (final : ChatMessage) :
  resolve_params (json_post_list body) w = (Ok tt, w1) ->
  messages request = prior ++ [final] ->
  role final = user ->
  default false (stream request) = true ->
  let rest := (split_system prior).2 in
  let history := if Nat.even (length rest) then fold_pairs rest else [] in
  trace (stream_chat body is_disconnected w).2 !! length (trace w)
  = Some (EvTokenize (get_prompt (body_prompt body) (body_history body)) true
            (Some (default (PInt 512) (json_post_list body !! "max_input_length"))))
  /\ EvTokenize
       (get_prompt ((split_system prior).1 ++ content final) (Some history))
       false None ∈ trace (create_chat_completion request w2).2.
Proof.
  intros Hres Hm Hr Hstream rest history. split.
  - assert (Htrace : trace w1 = trace w).
    { rewrite resolve_params_spec in Hres. by injection Hres as _ <-. }
    unfold stream_chat, event_generator. run. rewrite Hres. run.
    match goal with |- context [event_loop ?p ?h ?d ?k ?s ?l ?b ?w0] =>
      assert (Hpre : exists more, trace (event_loop p h d k s l b w0).2
                                  = trace w0 ++ more);
      [|destruct Hpre as (more & Hpre);
        destruct (event_loop p h d k s l b w0) as [[[last_msg [new_text|]]|e] w3]]
    end.
    { match goal with |- context [event_loop ?p ?h ?d ?k ?s ?l ?b ?w0] =>
        generalize w0; generalize b; generalize l; generalize k; generalize s end.
      intros s. induction s as [|t s IH]; intros k l b w0.
      - exists []. by rewrite app_nil_r.
      - cbn [event_loop]. run. destruct (is_disconnected k).
        + eexists. reflexivity.
        + destruct (body_history body); run.
          * match goal with |- context [event_loop ?p ?h ?d ?k' s ?l' ?b' ?w4] =>
              destruct (IH k' l' b' w4) as (more & ->) end.
            cbn [trace]. eexists. by rewrite <- !app_assoc.
          * eexists. reflexivity. }
    all: cbn [snd trace] in *; run; try (destruct (body_history body); run);
      cbn [snd trace]; rewrite Hpre; cbn [trace]; rewrite <- Htrace;
      rewrite <- ?app_assoc; rewrite lookup_app_r, Nat.sub_diag by lia; done.
  - pose proof (query_and_history_spec prior final w2) as Hqh.
    rewrite Hr in Hqh. cbn [Role_eqb] in Hqh. rewrite <- Hm in Hqh.
    rewrite (create_chat_completion_spec request _ _ w2 Hqh), Hstream.
    cbn [snd trace]. rewrite !elem_of_app, !elem_of_cons. auto.
Qed.
End Stripping.

Lemma query_stripping_by_endpoint_witness :
  let body :=
    {| body_prompt := [NL; NL] ++ lit "hi" ++ [NL]; body_history := Some [];
       json_post_list := ∅ |} in
  let final := {| role := user; content := lit " hi " ++ [NL] |} in
  let request :=
    {| model := lit "x"; messages := [final]; temperature := None;
       top_p := None; max_length := None; stream := None |} in
  let w := startup 1024 in
  trace (create_item (H := replying (lit "ok")) body w).2 !! 0%nat
  = Some (EvTokenize (py_strip (get_prompt (lit "hi" ++ [NL]) (Some []))) true
            (Some (PInt 512)))
  /\ trace (create_chat_completion (H := replying (lit "ok")) request w).2 !! 0%nat
     = Some (EvTokenize (get_prompt (lit "hi") (Some [])) false None).
Proof.
  intros body final request w.
  apply (query_stripping_by_endpoint (H := replying (lit "ok")) body w
           (resolve_params (json_post_list body) w).2 2 (lit "hi" ++ [NL])
           request w [] final (lit " ") (lit "hi") (lit " " ++ [NL]));
    try (vm_compute; reflexivity);
    intros c Hc; vm_compute in Hc; injection Hc as <-;
    first [discriminate | reflexivity].
Defined.

(** C7, as stated, fails on each endpoint: [/chat] keeps the trailing
    newline of the prompt, [/stream_chat] keeps the leading one, and
    [/v1/chat/completions] removes a leading space, which is no newline. *)
Lemma query_not_stripped_of_surrounding_newlines :
  let w := startup 1024 in
  let chat :=
    {| body_prompt := lit "hi" ++ [NL]; body_history := Some [];
       json_post_list := ∅ |} in
  let streamed :=
    {| body_prompt := [NL] ++ lit "hi"; body_history := Some [];
       json_post_list := ∅ |} in
  let final := {| role := user; content := lit " hi" |} in
  let completion :=
    {| model := lit "x"; messages := [final]; temperature := None;
       top_p := None; max_length := None; stream := None |} in
  (exists text,
     trace (create_item (H := replying (lit "ok")) chat w).2 !! 0%nat
     = Some (EvTokenize text true (Some (PInt 512)))
     /\ text <> py_strip (get_prompt (py_strip_chars [NL] (body_prompt chat))
                            (body_history chat)))
  /\ (exists text,
        trace (stream_chat (H := replying (lit "ok")) streamed
                 (fun _ => false) w).2 !! 0%nat
        = Some (EvTokenize text true (Some (PInt 512)))
        /\ text <> get_prompt (py_strip_chars [NL] (body_prompt streamed))
                     (body_history streamed))
  /\ (exists text,
        trace (create_chat_completion (H := replying (lit "ok")) completion w).2
          !! 0%nat
        = Some (EvTokenize text false None)
        /\ text <> get_prompt (py_strip_chars [NL] (content final)) (Some [])).
Proof.
  intros w chat streamed final completion.
  repeat split; eexists; (split; [vm_compute; reflexivity|]);
    intros E; vm_compute in E; discriminate E.
Qed.

(** ** Post-processing of the response *)

Section Marker.
Context `{Collaborators}.

(** C10: [rstrip] with the marker argument removes the longest trailing
    run of characters of the marker's character set, not the marker as a
    suffix: whenever a text is [r ++ t] with [t] made of characters of the
    set and [r] not ending in one, the result is [r].  Every [/chat]
    answer and every non-streaming [/v1/chat/completions] message is the
    decoded text of the generation put through [lstrip] of newlines and
    then through this [rstrip]. *)
Theorem rstrip_strips_marker_charset
    (body : chat_body) (w : world)
    (request : ChatCompletionRequest) (w2 : world)
    (prior : list ChatMessage) (final : ChatMessage) (r t : list N) :
  Forall (fun c => c ∈ marker_charset) t ->
  (forall c, last r = Some c -> c ∉ marker_charset) ->
  messages request = prior ++ [final] ->
  py_rstrip response_marker (r ++ t) = r
  /\ (forall a w',
        create_item body w = (Ok a, w') ->
        let w1 := (resolve_params (json_post_list body) w).2 in
        let text :=
          py_strip (get_prompt (py_lstrip [NL] (body_prompt body))
                      (body_history body)) in
        let inputs :=
          tokenizer_call (model_max_length w1) text true
            (Some (default (PInt 512) (json_post_list body !! "max_input_length"))) in
        let kwargs :=
          <["input_ids" := PTensor (input_ids inputs)]>
            (<["attention_mask" := PTensor (attention_mask inputs)]>
               (generation_kwargs w1)) in
        let decoded :=
          decode_new_tokens (model_generate (clock w1) kwargs) inputs in
        answer_response a = py_rstrip response_marker (py_lstrip [NL] decoded)
        /\ (py_lstrip [NL] decoded = r ++ t -> answer_response a = r))
  /\ (forall res w',
        create_chat_completion request w2 = (Ok (Aggregate res), w') ->
        let rest := (split_system prior).2 in
        let history := if Nat.even (length rest) then fold_pairs rest else [] in
        let text :=
          get_prompt
            (py_strip (py_lstrip [NL] ((split_system prior).1 ++ content final)))
            (Some history) in
        let inputs := tokenizer_call (model_max_length w2) text false None in
        let kwargs :=
          <["attention_mask" := PTensor (attention_mask inputs)]>
            (<["input_ids" := PTensor (input_ids inputs)]>
               (generation_kwargs w2)) in
        let decoded :=
          decode_new_tokens (model_generate (clock w2) kwargs) inputs in
        content (message res) = py_rstrip response_marker (py_lstrip [NL] decoded)
        /\ (py_lstrip [NL] decoded = r ++ t -> content (message res) = r)).
Proof.
  intros Ht Hr Hm.
  assert (Hrun : py_rstrip response_marker (r ++ t) = r).
  { apply rstrip_by_run.
    - clear -Ht. induction Ht as [|c t Hc Ht IH]; [done|]. cbn [forallb].
      apply in_chars_marker in Hc. by rewrite Hc, IH.
    - intros c Hc. destruct (in_chars response_marker c) eqn:Hin; [|done].
      apply in_chars_marker in Hin. by destruct (Hr c Hc). }
  split; [exact Hrun|]. split.
  - intros a w' Hitem w1 text inputs kwargs decoded.
    rewrite create_item_spec in Hitem.
    fold w1 text inputs kwargs decoded in Hitem.
    assert (Ha : answer_response a
                 = py_rstrip response_marker (py_lstrip [NL] decoded)).
    { repeat case_match; try discriminate Hitem. by injection Hitem as <- _. }
    split; [exact Ha|]. intros Hd. by rewrite Ha, Hd.
  - intros res w' Hcomp rest history text inputs kwargs decoded.
    pose proof (query_and_history_spec prior final w2) as Hq. rewrite <- Hm in Hq.
    destruct (Role_eqb (role final) user).
    + rewrite (create_chat_completion_spec request _ _ w2 Hq) in Hcomp.
      destruct (default false (stream request)); [discriminate Hcomp|].
      injection Hcomp as <- _. cbn [message content].
      fold rest history text inputs kwargs decoded.
      split; [reflexivity|]. intros Hd. rewrite <- Hrun, <- Hd. reflexivity.
    + unfold create_chat_completion in Hcomp. revert Hcomp. run.
      by rewrite Hq.
Qed.
End Marker.

Lemma rstrip_strips_marker_charset_witness :
  let body :=
    {| body_prompt := lit "hi"; body_history := Some []; json_post_list := ∅ |} in
  let final := {| role := user; content := lit "hi" |} in
  let request :=
    {| model := lit "x"; messages := [final]; temperature := None;
       top_p := None; max_length := None; stream := None |} in
  let w := startup 1024 in
  py_rstrip response_marker (lit "door open") = lit "door"
  /\ (exists a w',
        create_item (H := replying (lit "door open")) body w = (Ok a, w')
        /\ answer_response a = lit "door")
  /\ (exists res w',
        create_chat_completion (H := replying (lit "door open")) request w
        = (Ok (Aggregate res), w')
        /\ content (message res) = lit "door").
Proof.
  intros body final request w.
  assert (Ht : Forall (fun c => c ∈ marker_charset) (lit " open")).
  { vm_compute. repeat constructor. }
  assert (Hr : forall c, last (lit "door") = Some c -> c ∉ marker_charset).
  { intros c Hc. vm_compute in Hc. injection Hc as <-.
    unfold marker_charset. rewrite !not_elem_of_cons. repeat split; try done.
    apply not_elem_of_nil. }
  destruct (rstrip_strips_marker_charset (H := replying (lit "door open"))
              body w request w [] final (lit "door") (lit " open") Ht Hr eq_refl)
    as (Hrun & Hchat & Hcomp).
  split; [exact Hrun|]. split.
  - eexists _, _. split; [vm_compute; reflexivity|].
    eapply Hchat; vm_compute; reflexivity.
  - eexists _, _. split; [vm_compute; reflexivity|].
    eapply Hcomp; vm_compute; reflexivity.
Defined.

(** The example of the claim: a text that is the word [open] is deleted
    whole, and [door open] loses the word and the space before it. *)
Lemma rstrip_open_example :
  py_rstrip response_marker (lit "open") = []
  /\ py_rstrip response_marker (lit "door open") = lit "door".
Proof. split; reflexivity. Qed.

(** The run at the failing input of C8: the streamer yields [a] then
    [b], the second poll reports the disconnect.  After the tokenizer call
    and the start of the thread, the effects are a poll, the
    [new_message] of [a], the poll that detects the disconnect, and then
    the [finish] event with the unsent [b]. *)
Lemma stream_chat_disconnect_trace :
  let request :=
    {| body_prompt := lit "hi"; body_history := Some []; json_post_list := ∅ |} in
  let sse name ident text said finished :=
    EvYield (Sse {| event := name; id := ident; retry := 15000;
                    data := {| data_response := lit text;
                               data_history := [(lit "hi", lit said)];
                               data_finish := finished |} |}) in
  drop 2 (trace (stream_chat (H := replying (lit "ab")) request
                   (fun k => Nat.leb 1 k) (startup 1024)).2)
  = [EvPoll false; sse "new_message" "message_id" "a" "" false;
     EvPoll true; sse "finish" "finish_id" "b" "a" true;
     EvTorchGc].
Proof. vm_compute. reflexivity. Qed.

Lemma finish_event_after_disconnect_witness :
  let request :=
    {| body_prompt := lit "hi"; body_history := Some []; json_post_list := ∅ |} in
  let is_disconnected (k : nat) := Nat.leb 1 k in
  exists w' before sent last_msg,
    stream_chat (H := replying (lit "ab")) request is_disconnected (startup 1024)
    = (Ok tt, w')
    /\ length sent = 2%nat
    /\ trace w' = before ++ sent
         ++ [EvPoll true;
             EvYield (Sse {| event := "finish"; id := "finish_id";
                             retry := 15000;
                             data := {| data_response := lit "b";
                                        data_history := [(lit "hi", last_msg)];
                                        data_finish := true |} |});
             EvTorchGc].
Proof.
  intros request is_disconnected.
  destruct (finish_event_after_disconnect (H := replying (lit "ab")) request
              is_disconnected (startup 1024)
              (resolve_params (json_post_list request) (startup 1024)).2
              [] 1%nat (lit "b"))
    as (sent & last_msg & Hlen & Hrun).
  - vm_compute. reflexivity.
  - reflexivity.
  - vm_compute. reflexivity.
  - intros j Hj. destruct j; [reflexivity | lia].
  - reflexivity.
  - eexists _, _, sent, last_msg. split; [exact Hrun|]. split; [exact Hlen|].
    cbn [trace]. reflexivity.
Defined.

(** * Further properties of the gateway *)

(** ** Prompt rendering across turns *)

(** The prompt of a follow-up request extends the prompt of the request
    before it: it is that prompt, then the answer given to it, then the
    block of the new query. *)
Theorem get_prompt_follow_up (q q0 r0 : list N) (h : list (list N * list N)) :
  get_prompt q (Some (h ++ [(q0, r0)]))
  = get_prompt q0 (Some h) ++ r0 ++ get_prompt q None.
Proof.
  assert (Hlast : forall x, block (x, []) =
            [NL; NL] ++ lit "### Instruction:" ++ [NL] ++ x
              ++ [NL; NL] ++ lit "### Response:" ++ [NL]).
  { intros x. unfold block. cbn [fst snd]. by rewrite !app_nil_r. }
  assert (Hsome : forall x l, get_prompt x (Some l)
                              = concat (block <$> l) ++ block (x, [])).
  { intros x [|t l]; [by rewrite Hlast|].
    unfold get_prompt. rewrite fold_blocks, Hlast. reflexivity. }
  rewrite !Hsome. change (get_prompt q None) with (get_prompt q (Some [])).
  rewrite Hsome. cbn [fmap list_fmap concat app].
  rewrite fmap_app, concat_app. cbn [fmap list_fmap concat].
  rewrite app_nil_r, <- !app_assoc. f_equal.
  unfold block. cbn [fst snd]. rewrite !app_nil_r, <- !app_assoc. reflexivity.
Qed.

(** ** Decoding of the generated tokens *)

Section Decoding.
Context `{Collaborators}.

(** The decoded response is made of the tokens after the prompt only, and
    every end-of-sequence token among them is skipped, wherever it
    stands. *)
Theorem decode_new_tokens_skips_prompt_and_eos (output : list Z)
    (inputs : BatchEncoding) :
  decode_new_tokens output inputs
  = concat (tokenizer_decode
              <$> filter (fun tok_id => eos_token_id <> Some tok_id)
                    (drop (length (input_ids inputs)) output)).
Proof.
  unfold decode_new_tokens.
  generalize (drop (length (input_ids inputs)) output). intros l.
  assert (Hgen : forall acc,
            fold_left (fun response tok_id =>
                         if not_eos tok_id then response ++ tokenizer_decode tok_id
                         else response) l acc
            = acc ++ concat (tokenizer_decode
                               <$> filter (fun tok_id => eos_token_id <> Some tok_id) l)).
  { induction l as [|t l IH]; intros acc; cbn [fold_left].
    - by rewrite app_nil_r.
    - rewrite IH. unfold not_eos. destruct eos_token_id as [e|].
      + destruct (Z.eqb_spec t e) as [->|Hne]; cbn [negb].
        * by rewrite filter_cons_False by (intros Hx; by apply Hx).
        * rewrite filter_cons_True by congruence.
          cbn [fmap list_fmap concat]. by rewrite <- app_assoc.
      + rewrite filter_cons_True by done.
        cbn [fmap list_fmap concat]. by rewrite <- app_assoc. }
  apply (Hgen []).
Qed.
End Decoding.

(** ** History reconstruction *)

Lemma fold_pairs_messages_of_history (h : list (list N * list N)) :
  fold_pairs (messages_of_history h) = h
  /\ length (messages_of_history h) = (2 * length h)%nat
  /\ split_system (messages_of_history h) = ([], messages_of_history h).
Proof.
  induction h as [|[q a] h (IH1 & IH2 & IH3)]; [done|].
  cbn [messages_of_history fold_pairs role content Role_eqb andb length].
  rewrite IH1, IH2. split; [done|]. split; [lia|]. done.
Qed.

(** A conversation that alternates user and assistant messages, with or
    without a leading system message, is read back as the history it
    encodes; the system content goes in front of the query. *)
Theorem history_round_trip (h : list (list N * list N)) (s q : list N) (w : world) :
  query_and_history
    (messages_of_history h ++ [{| role := user; content := q |}]) w
  = (Ok (q, h), w)
  /\ query_and_history
       ({| role := system; content := s |}
          :: messages_of_history h ++ [{| role := user; content := q |}]) w
     = (Ok (s ++ q, h), w).
Proof.
  destruct (fold_pairs_messages_of_history h) as (Hfold & Hlen & Hsplit).
  assert (Heven : Nat.even (length (messages_of_history h)) = true).
  { rewrite Hlen. apply Nat.even_spec. by exists (length h). }
  split.
  - rewrite query_and_history_spec. cbn [role Role_eqb].
    by rewrite Hsplit; cbn [fst snd]; rewrite Heven, Hfold.
  - rewrite app_comm_cons, query_and_history_spec. cbn [role Role_eqb].
    cbn [split_system role Role_eqb content fst snd].
    by rewrite Heven, Hfold.
Qed.

Lemma fold_pairs_sound (l : list ChatMessage) :
  (2 * length (fold_pairs l) <= length l)%nat
  /\ forall t, t ∈ fold_pairs l ->
       exists i, l !! i = Some {| role := user; content := t.1 |}
                 /\ l !! S i = Some {| role := assistant; content := t.2 |}.
Proof.
  induction l as [l IH] using (induction_ltof1 _ (@length _)). unfold ltof in IH.
  destruct l as [|a [|b rest]]; cbn [fold_pairs].
  - split; [simpl; lia|]. intros t Ht. by apply elem_of_nil in Ht.
  - split; [simpl; lia|]. intros t Ht. by apply elem_of_nil in Ht.
  - destruct (IH rest) as [Hlen Hin]; [simpl; lia|].
    assert (Hrest : forall t, t ∈ fold_pairs rest ->
              exists i, (a :: b :: rest) !! i = Some {| role := user; content := t.1 |}
                /\ (a :: b :: rest) !! S i = Some {| role := assistant; content := t.2 |}).
    { intros t Ht. destruct (Hin t Ht) as (i & H1 & H2). by exists (S (S i)). }
    destruct a as [ra ca], b as [rb cb]. cbn [role content].
    destruct ra, rb; cbn [Role_eqb andb app];
      (split; [cbn [length] in *; lia|]); try exact Hrest.
    intros t [->|Ht]%elem_of_cons; [by exists 0%nat | by apply Hrest].
Qed.

(** The reconstructed history never holds more turns than half the
    messages before the last, and never a turn that is not a user message
    directly followed by an assistant message of the request. *)
Theorem history_only_from_adjacent_pairs (messages : list ChatMessage)
    (query : list N) (history : list (list N * list N)) (w w' : world) :
  query_and_history messages w = (Ok (query, history), w') ->
  (2 * length history <= length messages - 1)%nat
  /\ forall t, t ∈ history ->
       exists i, messages !! i = Some {| role := user; content := t.1 |}
                 /\ messages !! S i = Some {| role := assistant; content := t.2 |}.
Proof.
  intros Hq. destruct messages as [|final prior _] using rev_ind.
  { cbv in Hq. discriminate Hq. }
  rewrite query_and_history_spec in Hq.
  destruct (Role_eqb (role final) user); [|discriminate Hq].
  injection Hq as _ <- _.
  assert (Hsub : exists pre, prior = pre ++ (split_system prior).2
                             /\ (length pre <= 1)%nat).
  { unfold split_system. destruct prior as [|first rest].
    - exists []. split; [done | simpl; lia].
    - destruct (Role_eqb (role first) system).
      + exists [first]. split; [done | simpl; lia].
      + exists []. split; [done | simpl; lia]. }
  destruct Hsub as (pre & Hprior & Hpre).
  destruct (fold_pairs_sound (split_system prior).2) as [Hlen Hin].
  destruct (Nat.even (length (split_system prior).2)).
  - split.
    + rewrite length_app. cbn [length]. rewrite Hprior at 2. rewrite length_app. lia.
    + intros t Ht. destruct (Hin t Ht) as (i & H1 & H2).
      exists (length pre + i)%nat. rewrite Hprior at 1 2. split.
      * rewrite lookup_app_l.
        { by rewrite lookup_app_r, Nat.add_sub' by lia. }
        apply lookup_lt_Some in H2. rewrite length_app. lia.
      * rewrite lookup_app_l.
        { rewrite lookup_app_r by lia.
          by replace (S (length pre + i) - length pre)%nat with (S i) by lia. }
        apply lookup_lt_Some in H2. rewrite length_app. lia.
  - split; [simpl; lia|]. intros t Ht. by apply elem_of_nil in Ht.
Qed.

(** ** The [/chat] endpoint *)

Lemma effects_since_app (w w' : world) (new : list effect) :
  trace w' = trace w ++ new -> effects_since w w' = new.
Proof. intros Ht. unfold effects_since. by rewrite Ht, drop_app_length. Qed.

(** Parameter resolution either succeeds or raises [TypeError]; it
    performs no effect and leaves every other entry of
    [generation_kwargs] alone. *)
Lemma resolve_params_frame (json : gmap string pyval) (w : world) :
  let run := resolve_params json w in
  (run.1 = Ok tt \/ run.1 = Raise TypeError)
  /\ trace run.2 = trace w
  /\ clock run.2 = clock w
  /\ forall key, key <> "max_length" -> key <> "top_p" -> key <> "temperature" ->
       generation_kwargs run.2 !! key = generation_kwargs w !! key.
Proof.
  cbn zeta. rewrite resolve_params_spec. cbn [fst snd trace clock generation_kwargs].
  split; [|split; [done|split; [done|]]].
  - destruct (model_max_length w); auto;
      match goal with |- context [py_gt ?a ?b] => destruct (py_gt a b) end; auto.
  - intros key H1 H2 H3. by rewrite !lookup_insert_ne.
Qed.

Lemma rstrip_by_head (P : N -> bool) (s : list N) (c : N) :
  head (rstrip_by P s) = Some c -> head s = Some c.
Proof.
  destruct s as [|x s]; [done|]. cbn [rstrip_by].
  destruct (rstrip_by P s); [destruct (P x)|]; done.
Qed.

Lemma lstrip_by_head (P : N -> bool) (s : list N) (c : N) :
  head (lstrip_by P s) = Some c -> P c = false.
Proof.
  induction s as [|x s IH]; [done|]. cbn [lstrip_by].
  destruct (P x) eqn:Hx; [done|]. by intros [= <-].
Qed.

(** The post-processing of lines 125 and 341 leaves a text that neither
    starts with a newline nor ends with a character of the marker. *)
Lemma post_processed_trimmed (decoded : list N) :
  let response := py_rstrip response_marker (py_lstrip [NL] decoded) in
  head response <> Some NL
  /\ forall c, last response = Some c -> c ∉ marker_charset.
Proof.
  cbn zeta. split.
  - intros Hh. apply rstrip_by_head, lstrip_by_head in Hh. discriminate Hh.
  - intros c Hc Hin. apply in_chars_marker in Hin.
    destruct (rstrip_by_split (in_chars response_marker) (py_lstrip [NL] decoded))
      as (t & _ & _ & Hlast).
    specialize (Hlast c Hc). congruence.
Qed.

Section ChatEndpoint.
Context `{Collaborators}.

(** A served [/chat] request: status 200, the history of the request with
    exactly one turn appended, made of the prompt without its leading
    newlines and of the response returned; the effects are one tokenizer
    call, one generation and the garbage collection, in this order; the
    response neither starts with a newline nor ends with a character of
    the marker. *)
Theorem chat_answer_shape (body : chat_body) (w w' : world) (a : answer) :
  create_item body w = (Ok a, w') ->
  exists h text limit kwargs,
    body_history body = Some h
    /\ answer_status a = 200
    /\ answer_history a
       = h ++ [(py_lstrip [NL] (body_prompt body), answer_response a)]
    /\ effects_since w w'
       = [EvTokenize text true limit; EvGenerate kwargs; EvTorchGc]
    /\ head (answer_response a) <> Some NL
    /\ forall c, last (answer_response a) = Some c -> c ∉ marker_charset.
Proof.
  intros Hrun. rewrite create_item_spec in Hrun.
  destruct (resolve_params_frame (json_post_list body) w) as (_ & Htrace & _).
  cbn zeta in Htrace.
  repeat case_match; try discriminate Hrun.
  injection Hrun as <- <-. cbn [answer_status answer_history answer_response].
  eexists _, _, _, _. split; [done|]. split; [done|]. split; [done|].
  split; [apply effects_since_app; cbn [trace]; by rewrite Htrace|].
  apply post_processed_trimmed.
Qed.


(** A [/chat] request without the ["history"] key is tokenized and
    generated for, and only then fails, with [TypeError], when the new
    turn is appended to [None]; the garbage collection is not reached. *)
Theorem chat_without_history_generates_then_fails (body : chat_body)
    (w w1 : world) :
  resolve_params (json_post_list body) w = (Ok tt, w1) ->
  generation_kwargs w !! "input_ids" = None ->
  generation_kwargs w !! "attention_mask" = None ->
  body_history body = None ->
  exists w' text limit kwargs,
    create_item body w = (Raise TypeError, w')
    /\ effects_since w w' = [EvTokenize text true limit; EvGenerate kwargs].
Proof.
  intros Hres Hi Ha Hh. rewrite create_item_spec.
  destruct (resolve_params_frame (json_post_list body) w)
    as (_ & Htrace & _ & Hkeys). cbn zeta in *.
  rewrite Hres in *. cbn [fst snd] in *.
  rewrite (Hkeys "input_ids"), (Hkeys "attention_mask"), Hi, Ha, Hh by done.
  eexists _, _, _, _. split; [reflexivity|].
  apply effects_since_app. cbn [trace]. by rewrite Htrace.
Qed.

(** A request that supplies none of the three sampling parameters, when
    the process-wide defaults hold all three, leaves [generation_kwargs]
    exactly as it was on [/chat], and every entry but the tokenizer
    outputs and the streamer as it was on [/stream_chat]. *)
Theorem request_without_parameters_keeps_defaults (body : chat_body)
    (is_disconnected : nat -> bool) (w : world) :
  json_post_list body !! "max_generate_length" = None ->
  json_post_list body !! "top_p" = None ->
  json_post_list body !! "temperature" = None ->
  is_Some (generation_kwargs w !! "max_length") ->
  is_Some (generation_kwargs w !! "top_p") ->
  is_Some (generation_kwargs w !! "temperature") ->
  generation_kwargs (create_item body w).2 = generation_kwargs w
  /\ forall key,
       key <> "input_ids" -> key <> "attention_mask" -> key <> "streamer" ->
       generation_kwargs (stream_chat body is_disconnected w).2 !! key
       = generation_kwargs w !! key.
Proof.
  intros Hj1 Hj2 Hj3 [l Hl] [p Hp] [t Ht].
  assert (Hsame : generation_kwargs (resolve_params (json_post_list body) w).2
                  = generation_kwargs w).
  { rewrite resolve_params_spec. cbn [snd generation_kwargs].
    unfold get_or_default. rewrite Hj1, Hj2, Hj3, Hl, Hp, Ht. cbn [default].
    rewrite (insert_id _ "max_length") by done.
    rewrite (insert_id _ "top_p") by done.
    by rewrite insert_id. }
  split.
  - destruct (create_item_globals body w) as [_ ->]. exact Hsame.
  - intros key H1 H2 H3.
    destruct (stream_chat_globals body is_disconnected w key H1 H2 H3) as [_ ->].
    by rewrite Hsame.
Qed.

End ChatEndpoint.

(** ** The [/stream_chat] endpoint *)

Lemma yielded_app (a b : list effect) : yielded (a ++ b) = yielded a ++ yielded b.
Proof. apply omap_app. Qed.

(** The loop when no poll reports a disconnect: one [new_message] per
    text, in order, each with the text accumulated before it. *)
Lemma event_loop_undisturbed (prompt : list N) (h : list (list N * list N))
    (is_disconnected : nat -> bool) (texts : list (list N)) :
  (forall j, is_disconnected j = false) ->
  forall (k : nat) (said : list N) (bound : option (list N)) (w : world),
  exists new,
    event_loop prompt (Some h) is_disconnected k texts said bound w
    = (Ok (said ++ concat texts,
           match last texts with Some t => Some t | None => bound end),
       {| generation_kwargs := generation_kwargs w;
          model_max_length := model_max_length w;
          trace := trace w ++ new;
          clock := clock w |})
    /\ yielded new
       = imap (fun i new_text =>
                 Sse {| event := "new_message"; id := "message_id";
                        retry := 15000;
                        data := {| data_response := new_text;
                                   data_history :=
                                     h ++ [(prompt, said ++ concat (take i texts))];
                                   data_finish := false |} |}) texts
    /\ EvTorchGc ∉ new.
Proof.
  intros Hfalse. induction texts as [|t rest IH]; intros k said bound w.
  - exists []. cbn. rewrite !app_nil_r. split; [by destruct w|].
    split; [done | apply not_elem_of_nil].
  - destruct (IH (S k) (said ++ t) (Some t)
                {| generation_kwargs := generation_kwargs w;
                   model_max_length := model_max_length w;
                   trace := (trace w ++ [EvPoll false])
                            ++ [EvYield (Sse {| event := "new_message";
                                  id := "message_id"; retry := RETRY_TIMEOUT;
                                  data := {| data_response := t;
                                             data_history := h ++ [(prompt, said)];
                                             data_finish := false |} |})];
                   clock := clock w |})
      as (new & Hrun & Hy & Hgc).
    eexists ([EvPoll false; _] ++ new).
    cbn [event_loop]. run. rewrite Hfalse. run. rewrite Hrun.
    cbn [generation_kwargs model_max_length trace clock].
    split; [|split].
    + assert (Hl : match last rest with Some t0 => Some t0 | None => Some t end
                   = match last (t :: rest) with
                     | Some t0 => Some t0
                     | None => bound
                     end).
      { destruct rest as [|r rest' _] using rev_ind; [done|].
        by rewrite app_comm_cons, !last_snoc. }
      rewrite Hl, <- !app_assoc. reflexivity.
    + rewrite yielded_app, Hy. cbn [yielded omap list_omap app].
      cbn [imap]. rewrite app_nil_r. f_equal.
      apply imap_ext. intros i x _. cbn [compose take concat].
      by rewrite <- app_assoc.
    + rewrite elem_of_app, !elem_of_cons, elem_of_nil. intros [[|[|[]]]|]; done.
Qed.

Section StreamEndpoint.
Context `{Collaborators}.

(** An undisturbed stream: one [new_message] per text of the streamer, in
    order, the [i]-th with that text and the history extended by the
    prompt and the texts before it; then exactly one [finish] event, which
    repeats the last text as its response and carries the whole
    accumulated answer in its history; the garbage collection comes
    last. *)
Theorem stream_chat_undisturbed (body : chat_body)
    (is_disconnected : nat -> bool) (w w1 : world)
    (h : list (list N * list N)) (final_text : list N) :
  let prompt := body_prompt body in
  let limit := default (PInt 512) (json_post_list body !! "max_input_length") in
  let inputs :=
    tokenizer_call (model_max_length w1) (get_prompt prompt (Some h)) true
      (Some limit) in
  let kw :=
    <["streamer" := PStreamer]>
      (<["attention_mask" := PTensor (attention_mask inputs)]>
         (<["input_ids" := PTensor (input_ids inputs)]> (generation_kwargs w1))) in
  let texts := streamer_texts (clock w1) kw in
  resolve_params (json_post_list body) w = (Ok tt, w1) ->
  body_history body = Some h ->
  (forall j, is_disconnected j = false) ->
  last texts = Some final_text ->
  exists w',
    stream_chat body is_disconnected w = (Ok tt, w')
    /\ yielded (effects_since w w')
       = imap (fun i new_text =>
                 Sse {| event := "new_message"; id := "message_id";
                        retry := 15000;
                        data := {| data_response := new_text;
                                   data_history :=
                                     h ++ [(prompt, concat (take i texts))];
                                   data_finish := false |} |}) texts
         ++ [Sse {| event := "finish"; id := "finish_id"; retry := 15000;
                    data := {| data_response := final_text;
                               data_history := h ++ [(prompt, concat texts)];
                               data_finish := true |} |}]
    /\ last (effects_since w w') = Some EvTorchGc.
Proof.
  intros prompt limit inputs kw texts Hres Hh Hfalse Hlast.
  destruct (resolve_params_frame (json_post_list body) w) as (_ & Htrace & _).
  cbn zeta in Htrace. rewrite Hres in Htrace. cbn [snd] in Htrace.
  unfold stream_chat, event_generator. run. rewrite Hres, Hh.
  fold prompt limit inputs kw texts.
  match goal with |- context [event_loop ?p (Some h) ?d 0%nat texts ?l ?b ?w0] =>
    destruct (event_loop_undisturbed p h d texts Hfalse 0%nat l b w0)
      as (new & Hrun & Hy & Hgc)
  end.
  rewrite Hrun, Hlast. run. eexists. split; [reflexivity|].
  erewrite effects_since_app
    by (cbn [trace]; rewrite <- Htrace, <- !app_assoc; reflexivity).
  split.
  - rewrite !yielded_app, Hy. cbn [yielded omap list_omap app].
    rewrite ?app_nil_r. reflexivity.
  - rewrite !app_assoc. apply last_snoc.
Qed.

(** When the streamer yields nothing, [new_text] is never bound and the
    [finish] event cannot be built: the request fails with
    [UnboundLocalError] after the generation thread was started, and the
    client receives no event at all. *)
Theorem stream_chat_empty_streamer (body : chat_body)
    (is_disconnected : nat -> bool) (w w1 : world) :
  let limit := default (PInt 512) (json_post_list body !! "max_input_length") in
  let text := get_prompt (body_prompt body) (body_history body) in
  let inputs := tokenizer_call (model_max_length w1) text true (Some limit) in
  let kw :=
    <["streamer" := PStreamer]>
      (<["attention_mask" := PTensor (attention_mask inputs)]>
         (<["input_ids" := PTensor (input_ids inputs)]> (generation_kwargs w1))) in
  resolve_params (json_post_list body) w = (Ok tt, w1) ->
  streamer_texts (clock w1) kw = [] ->
  exists w',
    stream_chat body is_disconnected w = (Raise UnboundLocalError, w')
    /\ effects_since w w' = [EvTokenize text true (Some limit); EvThreadStart kw].
Proof.
  intros limit text inputs kw Hres Hempty.
  destruct (resolve_params_frame (json_post_list body) w) as (_ & Htrace & _).
  cbn zeta in Htrace. rewrite Hres in Htrace. cbn [snd] in Htrace.
  unfold stream_chat, event_generator. run. rewrite Hres.
  fold limit text inputs kw. rewrite Hempty. cbn [event_loop]. run.
  eexists. split; [reflexivity|].
  apply effects_since_app. cbn [trace]. by rewrite <- Htrace, <- !app_assoc.
Qed.

(** A [/stream_chat] request without the ["history"] key starts the
    generation thread and then fails with [TypeError] when the first
    payload is built, whatever the polls answer: the client receives no
    event and the garbage collection is not reached. *)
Theorem stream_chat_without_history (body : chat_body)
    (is_disconnected : nat -> bool) (w w1 : world)
    (first : list N) (others : list (list N)) :
  let limit := default (PInt 512) (json_post_list body !! "max_input_length") in
  let text := get_prompt (body_prompt body) None in
  let inputs := tokenizer_call (model_max_length w1) text true (Some limit) in
  let kw :=
    <["streamer" := PStreamer]>
      (<["attention_mask" := PTensor (attention_mask inputs)]>
         (<["input_ids" := PTensor (input_ids inputs)]> (generation_kwargs w1))) in
  resolve_params (json_post_list body) w = (Ok tt, w1) ->
  body_history body = None ->
  streamer_texts (clock w1) kw = first :: others ->
  exists w',
    stream_chat body is_disconnected w = (Raise TypeError, w')
    /\ effects_since w w'
       = [EvTokenize text true (Some limit); EvThreadStart kw;
          EvPoll (is_disconnected 0%nat)]
    /\ yielded (effects_since w w') = [].
Proof.
  intros limit text inputs kw Hres Hh Htexts.
  destruct (resolve_params_frame (json_post_list body) w) as (_ & Htrace & _).
  cbn zeta in Htrace. rewrite Hres in Htrace. cbn [snd] in Htrace.
  unfold stream_chat, event_generator. run. rewrite Hres, Hh.
  fold limit text inputs kw. rewrite Htexts. cbn [event_loop]. run.
  destruct (is_disconnected 0%nat); run;
    (eexists; split; [reflexivity|];
     erewrite effects_since_app
       by (cbn [trace]; rewrite <- Htrace, <- !app_assoc; reflexivity);
     by split).
Qed.

End StreamEndpoint.

(** ** The [/v1/chat/completions] endpoint *)

Lemma delta_text_content_chunks (model_id : list N) (texts : list (list N)) :
  concat (omap (fun item => match item with
                            | Chunk c => delta_content c
                            | _ => None
                            end)
            ((fun new_text =>
                Chunk {| chunk_model := model_id; delta_role := None;
                         delta_content := Some new_text;
                         chunk_finish_reason := None |})
               <$> filter (fun new_text => new_text <> []) texts))
  = concat texts.
Proof.
  induction texts as [|t texts IH]; [done|].
  destruct t as [|c t].
  - rewrite filter_cons_False by auto. exact IH.
  - rewrite filter_cons_True by done. cbn [fmap list_fmap omap list_omap
      delta_content concat]. cbn [fmap list_fmap] in IH. by rewrite IH.
Qed.

Lemma yielded_content_chunks (model_id : list N) (texts : list (list N)) :
  yielded ((fun new_text =>
              EvYield (Chunk {| chunk_model := model_id; delta_role := None;
                                delta_content := Some new_text;
                                chunk_finish_reason := None |})) <$> texts)
  = (fun new_text =>
       Chunk {| chunk_model := model_id; delta_role := None;
                delta_content := Some new_text;
                chunk_finish_reason := None |}) <$> texts.
Proof. induction texts as [|t texts IH]; [done|]. cbn. f_equal. exact IH. Qed.

Section CompletionEndpoint.
Context `{Collaborators}.

(** The run of a request that ends with a user message, with the query
    and the history named. *)
Lemma create_chat_completion_served (request : ChatCompletionRequest)
    (w : world) (prior : list ChatMessage) (final : ChatMessage) :
  messages request = prior ++ [final] ->
  role final = user ->
  exists query history,
    query_and_history (messages request) w = (Ok (query, history), w).
Proof.
  intros Hm Hr. pose proof (query_and_history_spec prior final w) as Hq.
  rewrite Hr in Hq. cbn [Role_eqb] in Hq. rewrite <- Hm in Hq. eauto.
Qed.

(** [/v1/chat/completions] never calls the garbage collection that
    [/chat] and [/stream_chat] end with, and never touches the tokenizer
    window, whatever the request and its outcome. *)
Theorem completion_never_collects_garbage (request : ChatCompletionRequest)
    (w : world) :
  exists new,
    trace (create_chat_completion request w).2 = trace w ++ new
    /\ (EvTorchGc ∉ new)
    /\ model_max_length (create_chat_completion request w).2
       = model_max_length w.
Proof.
  destruct (messages request) as [|m ms _] eqn:Hm using rev_ind.
  - rewrite (create_chat_completion_empty request w Hm). exists [].
    rewrite app_nil_r. split; [done|]. split; [apply not_elem_of_nil | done].
  - assert (Hdec : role m = user \/ role m <> user)
      by (destruct (role m); auto).
    destruct Hdec as [Hr|Hr].
    + destruct (create_chat_completion_served request w ms m Hm Hr)
        as (query & history & Hq).
      rewrite (create_chat_completion_spec request _ _ w Hq).
      destruct (default false (stream request)); cbn [snd trace model_max_length];
        (eexists; split; [reflexivity|]; split; [|done]).
      * rewrite !elem_of_app, !elem_of_cons, !elem_of_nil, list_elem_of_fmap.
        intros [[|[|[|[]]]]|[(t & Ht & _)|[|[|[]]]]]; done.
      * rewrite !elem_of_cons, !elem_of_nil. intros [|[|[]]]; done.
    + rewrite (create_chat_completion_rejected request w ms m Hm Hr). exists [].
      rewrite app_nil_r. split; [done|]. split; [apply not_elem_of_nil | done].
Qed.

(** A served non-streaming completion: the message has role [assistant],
    the model name of the request is echoed, the content neither starts
    with a newline nor ends with a character of the marker; the effects
    are one tokenizer call without truncation and one generation, whose
    keyword arguments, tensors included, stay in the process-wide
    [generation_kwargs]. *)
Theorem completion_answer_shape (request : ChatCompletionRequest)
    (w w' : world) (res : ChatCompletionResponse) :
  create_chat_completion request w = (Ok (Aggregate res), w') ->
  role (message res) = assistant
  /\ response_model res = model request
  /\ head (content (message res)) <> Some NL
  /\ (forall c, last (content (message res)) = Some c -> c ∉ marker_charset)
  /\ exists text,
       effects_since w w'
       = [EvTokenize text false None; EvGenerate (generation_kwargs w')]
       /\ is_Some (generation_kwargs w' !! "input_ids")
       /\ is_Some (generation_kwargs w' !! "attention_mask").
Proof.
  intros Hrun.
  destruct (messages request) as [|m ms _] eqn:Hm using rev_ind.
  { rewrite (create_chat_completion_empty request w Hm) in Hrun. discriminate Hrun. }
  assert (Hdec : role m = user \/ role m <> user) by (destruct (role m); auto).
  destruct Hdec as [Hr|Hr];
    [|rewrite (create_chat_completion_rejected request w ms m Hm Hr) in Hrun;
      discriminate Hrun].
  destruct (create_chat_completion_served request w ms m Hm Hr)
    as (query & history & Hq).
  rewrite (create_chat_completion_spec request _ _ w Hq) in Hrun.
  destruct (default false (stream request)); [discriminate Hrun|].
  injection Hrun as <- <-. cbn [message role content response_model].
  split; [done|]. split; [done|].
  split; [apply post_processed_trimmed|]. split; [apply post_processed_trimmed|].
  eexists. split; [by apply effects_since_app|].
  cbn [generation_kwargs]. split.
  - rewrite lookup_insert_ne, lookup_insert_eq by done. by eexists.
  - rewrite lookup_insert_eq. by eexists.
Qed.

(** A served streaming completion: the items are the chunk announcing the
    role, one content chunk per non-empty text of the streamer, the chunk
    with the finish reason and the [DONE] marker; the contents of the
    deltas, put together, are the whole text of the streamer. *)
Theorem streamed_completion_text (request : ChatCompletionRequest)
    (w : world) (prior : list ChatMessage) (final : ChatMessage) :
  messages request = prior ++ [final] ->
  role final = user ->
  default false (stream request) = true ->
  let w' := (create_chat_completion request w).2 in
  let items := yielded (effects_since w w') in
  exists kwargs,
    EvThreadStart kwargs ∈ effects_since w w'
    /\ delta_text items = concat (streamer_texts (clock w) kwargs)
    /\ length items
       = (3 + length (filter (fun new_text => new_text <> [])
                        (streamer_texts (clock w) kwargs)))%nat
    /\ head items
       = Some (Chunk {| chunk_model := model request;
                        delta_role := Some assistant; delta_content := None;
                        chunk_finish_reason := None |})
    /\ last items = Some Done.
Proof.
  intros Hm Hr Hs w' items. subst items w'.
  destruct (create_chat_completion_served request w prior final Hm Hr)
    as (query & history & Hq).
  rewrite (create_chat_completion_spec request _ _ w Hq), Hs. cbn [snd].
  erewrite effects_since_app by (cbn [trace]; reflexivity).
  eexists. split; [rewrite !elem_of_app, !elem_of_cons; auto|].
  rewrite !yielded_app, yielded_content_chunks.
  cbn [yielded omap list_omap app].
  split; [|split; [|split]].
  - unfold delta_text. cbn [omap list_omap delta_content].
    rewrite omap_app. cbn [omap list_omap delta_content].
    rewrite app_nil_r. apply delta_text_content_chunks.
  - cbn [length]. rewrite length_app, length_fmap. cbn [length]. lia.
  - done.
  - match goal with |- last (?x :: ?l ++ [?a; ?b]) = _ =>
      replace (x :: l ++ [a; b]) with ((x :: l ++ [a]) ++ [b])
        by (cbn [app]; by rewrite <- app_assoc)
    end.
    apply last_snoc.
Qed.


End CompletionEndpoint.

(** ** Runs on concrete requests *)

Lemma history_only_from_adjacent_pairs_witness :
  let msg r text := {| role := r; content := lit text |} in
  let messages := [msg user "q1"; msg assistant "a1"; msg user "Hi"] in
  (2 * length [(lit "q1", lit "a1")] <= length messages - 1)%nat
  /\ forall t, t ∈ [(lit "q1", lit "a1")] ->
       exists i, messages !! i = Some {| role := user; content := t.1 |}
                 /\ messages !! S i = Some {| role := assistant; content := t.2 |}.
Proof.
  intros msg messages.
  apply (history_only_from_adjacent_pairs messages (lit "Hi")
           [(lit "q1", lit "a1")] (startup 1024) (startup 1024)).
  vm_compute. reflexivity.
Defined.

Lemma chat_answer_shape_witness :
  let body :=
    {| body_prompt := [NL] ++ lit "hi"; body_history := Some [];
       json_post_list := ∅ |} in
  exists a w',
    create_item (H := replying (lit "ok")) body (startup 1024) = (Ok a, w')
    /\ answer_status a = 200
    /\ answer_history a = [(lit "hi", answer_response a)].
Proof.
  intros body.
  set (run := create_item (H := replying (lit "ok")) body (startup 1024)).
  set (a := match run.1 with
            | Ok a => a
            | Raise _ => {| answer_response := []; answer_history := [];
                            answer_status := 0; answer_time := [] |}
            end).
  assert (Hrun : run = (Ok a, run.2)) by (vm_compute; reflexivity).
  destruct (chat_answer_shape (H := replying (lit "ok")) body (startup 1024)
              run.2 a Hrun)
    as (h & text & limit & kwargs & Hh & Hstatus & Hhist & _).
  exists a, run.2. split; [exact Hrun|]. split; [exact Hstatus|].
  injection Hh as <-. exact Hhist.
Defined.

Lemma chat_without_history_generates_then_fails_witness :
  let body :=
    {| body_prompt := lit "hi"; body_history := None; json_post_list := ∅ |} in
  exists w' text limit kwargs,
    create_item (H := replying (lit "ok")) body (startup 1024)
    = (Raise TypeError, w')
    /\ effects_since (startup 1024) w'
       = [EvTokenize text true limit; EvGenerate kwargs].
Proof.
  intros body.
  apply (chat_without_history_generates_then_fails (H := replying (lit "ok"))
           body (startup 1024)
           (resolve_params (json_post_list body) (startup 1024)).2);
    vm_compute; reflexivity.
Defined.

Lemma request_without_parameters_keeps_defaults_witness :
  let body :=
    {| body_prompt := lit "hi"; body_history := Some []; json_post_list := ∅ |} in
  generation_kwargs (create_item (H := replying (lit "ok")) body (startup 64)).2
  = generation_kwargs (startup 64).
Proof.
  intros body.
  apply (request_without_parameters_keeps_defaults (H := replying (lit "ok"))
           body (fun _ => false) (startup 64));
    first [reflexivity | vm_compute; by eexists].
Defined.


Lemma stream_chat_undisturbed_witness :
  let body :=
    {| body_prompt := lit "hi"; body_history := Some []; json_post_list := ∅ |} in
  let sse name ident text said finished :=
    Sse {| event := name; id := ident; retry := 15000;
           data := {| data_response := lit text;
                      data_history := [(lit "hi", lit said)];
                      data_finish := finished |} |} in
  exists w',
    stream_chat (H := replying (lit "ab")) body (fun _ => false) (startup 1024)
    = (Ok tt, w')
    /\ yielded (effects_since (startup 1024) w')
       = [sse "new_message" "message_id" "a" "" false;
          sse "new_message" "message_id" "b" "a" false;
          sse "finish" "finish_id" "b" "ab" true]
    /\ last (effects_since (startup 1024) w') = Some EvTorchGc.
Proof.
  intros body sse.
  apply (stream_chat_undisturbed (H := replying (lit "ab")) body (fun _ => false)
           (startup 1024)
           (resolve_params (json_post_list body) (startup 1024)).2
           [] (lit "b"));
    first [vm_compute; reflexivity | intros j; reflexivity].
Defined.

Lemma stream_chat_empty_streamer_witness :
  let body :=
    {| body_prompt := lit "hi"; body_history := Some []; json_post_list := ∅ |} in
  exists w',
    stream_chat (H := replying []) body (fun _ => false) (startup 1024)
    = (Raise UnboundLocalError, w')
    /\ yielded (effects_since (startup 1024) w') = [].
Proof.
  intros body.
  destruct (stream_chat_empty_streamer (H := replying []) body (fun _ => false)
              (startup 1024)
              (resolve_params (json_post_list body) (startup 1024)).2)
    as (w' & Hrun & Heff); [vm_compute; reflexivity..|].
  exists w'. split; [exact Hrun|]. rewrite Heff. reflexivity.
Defined.

Lemma stream_chat_without_history_witness :
  let body :=
    {| body_prompt := lit "hi"; body_history := None; json_post_list := ∅ |} in
  exists w',
    stream_chat (H := replying (lit "ab")) body (fun _ => false) (startup 1024)
    = (Raise TypeError, w')
    /\ yielded (effects_since (startup 1024) w') = [].
Proof.
  intros body.
  destruct (stream_chat_without_history (H := replying (lit "ab")) body
              (fun _ => false) (startup 1024)
              (resolve_params (json_post_list body) (startup 1024)).2
              (lit "a") [lit "b"])
    as (w' & Hrun & _ & Hy); [vm_compute; reflexivity..|].
  by exists w'.
Defined.

Lemma completion_answer_shape_witness :
  let hi := {| role := user; content := lit "Hi" |} in
  let request :=
    {| model := lit "x"; messages := [hi]; temperature := None; top_p := None;
       max_length := None; stream := None |} in
  exists res w',
    create_chat_completion (H := replying ([NL] ++ lit "door open")) request
      (startup 1024)
    = (Ok (Aggregate res), w')
    /\ role (message res) = assistant
    /\ response_model res = lit "x"
    /\ content (message res) = lit "door".
Proof.
  intros hi request.
  set (run := create_chat_completion (H := replying ([NL] ++ lit "door open"))
                request (startup 1024)).
  set (res := match run.1 with
              | Ok (Aggregate r) => r
              | _ => {| response_model := []; message := hi;
                        finish_reason := stop; created := 0 |}
              end).
  assert (Hrun : run = (Ok (Aggregate res), run.2)) by (vm_compute; reflexivity).
  destruct (completion_answer_shape (H := replying ([NL] ++ lit "door open"))
              request (startup 1024) run.2 res Hrun)
    as (Hrole & Hmodel & _).
  exists res, run.2. split; [exact Hrun|]. split; [exact Hrole|].
  split; [exact Hmodel|]. vm_compute. reflexivity.
Defined.

Lemma streamed_completion_text_witness :
  let hi := {| role := user; content := lit "Hi" |} in
  let request :=
    {| model := lit "x"; messages := [hi]; temperature := None; top_p := None;
       max_length := None; stream := Some true |} in
  let w' :=
    (create_chat_completion (H := replying (lit "ab")) request (startup 1024)).2 in
  exists kwargs,
    EvThreadStart kwargs ∈ effects_since (startup 1024) w'
    /\ delta_text (yielded (effects_since (startup 1024) w'))
       = concat (streamer_texts (Collaborators := replying (lit "ab")) 0 kwargs)
    /\ last (yielded (effects_since (startup 1024) w')) = Some Done.
Proof.
  intros hi request w'.
  destruct (streamed_completion_text (H := replying (lit "ab")) request
              (startup 1024) [] hi eq_refl eq_refl eq_refl)
    as (kwargs & Hstart & Htext & _ & _ & Hlast).
  exists kwargs. split; [exact Hstart|]. split; [exact Htext | exact Hlast].
Defined.



Lemma chat_parameters_resolved_witness :
  let body :=
    {| body_prompt := lit "hi"; body_history := Some [];
       json_post_list := <["top_p" := PFloat (S754_finite false 4503599627370496 (-53))]> ∅ |} in
  let w := startup 64 in
  let w' := (create_item (H := replying (lit "ok")) body w).2 in
  generation_kwargs w' !! "max_length" = Some (PInt 64)
  /\ generation_kwargs w' !! "top_p"
     = Some (PFloat (S754_finite false 4503599627370496 (-53)))
  /\ generation_kwargs w' !! "temperature" = Some (PFloat float_0_8).
Proof.
  intros body w w'.
  exact (chat_parameters_resolved (H := replying (lit "ok")) body (fun _ => false)
           w w' (or_introl eq_refl)).
Defined.

Lemma create_chat_completion_errors_witness :
  let request :=
    {| model := lit "x"; messages := []; temperature := None; top_p := None;
       max_length := None; stream := None |} in
  (IndexError = IndexError /\ messages request = [])
  \/ (IndexError = HTTPException 400 "Invalid request"
      /\ exists prior final,
           messages request = prior ++ [final] /\ role final <> user).
Proof.
  intros request.
  apply (create_chat_completion_errors (H := replying (lit "ok")) request
           (startup 1024) (startup 1024) IndexError).
  reflexivity.
Defined.

Lemma streamed_query_not_stripped_witness :
  let body :=
    {| body_prompt := [NL] ++ lit "hi" ++ [NL]; body_history := Some [];
       json_post_list := ∅ |} in
  let final := {| role := user; content := [NL] ++ lit " hi " |} in
  let request :=
    {| model := lit "x"; messages := [final]; temperature := None;
       top_p := None; max_length := None; stream := Some true |} in
  let w := startup 1024 in
  trace (stream_chat (H := replying (lit "ok")) body (fun _ => false) w).2 !! 0%nat
  = Some (EvTokenize (get_prompt ([NL] ++ lit "hi" ++ [NL]) (Some [])) true
            (Some (PInt 512)))
  /\ EvTokenize (get_prompt ([NL] ++ lit " hi ") (Some [])) false None
     ∈ trace (create_chat_completion (H := replying (lit "ok")) request w).2.
Proof.
  intros body final request w.
  apply (streamed_query_not_stripped (H := replying (lit "ok")) body
           (fun _ => false) w (resolve_params (json_post_list body) w).2
           request w [] final);
    first [reflexivity | vm_compute; reflexivity].
Defined.

Lemma create_chat_completion_defaults_witness :
  let hi := {| role := user; content := lit "Hi" |} in
  let request :=
    {| model := lit "x"; messages := [hi];
       temperature := Some (S754_finite false 7205759403792794 (-56));
       top_p := None; max_length := None; stream := None |} in
  generation_kwargs
    (create_chat_completion (H := replying (lit "ok")) request (startup 1024)).2
    !! "temperature"
  = generation_kwargs (startup 1024) !! "temperature".
Proof.
  intros hi request.
  apply (create_chat_completion_defaults (H := replying (lit "ok")) request
           (startup 1024) "temperature");
    discriminate.
Defined.
